(** * Load market analysis: the risk-and-quality scoring pipeline of handler.py

    A shallow embedding of the scoring functions of [src/handler.py]
    ([check_for_hazards], [estimate_weather_delay],
    [get_simple_weather_analysis], [calculate_deadhead_analysis],
    [calculate_load_score], [get_rate_comparison]) and the properties the
    specification states about them.

    Numbers.  Python's [int] and [float] values are embedded as exact
    rationals ([Q]): arithmetic is the ideal arithmetic the source writes,
    without binary rounding error.  [round] is Python's round-half-to-even.

    Effects.  The only effects of these functions are exceptions
    ([ZeroDivisionError] of [/], [KeyError] of [d[k]]).  They are threaded
    through a small monad which also counts the true divisions performed, so
    that "no division is attempted" is a statement about a run. *)

From Stdlib Require Import ZArith QArith Qround Qabs Qminmax Lqa Lia List String Bool.
Import ListNotations.

Local Open Scope string_scope.
Local Open Scope list_scope.
Local Open Scope Q_scope.

(** ** Exceptions and the evaluation monad *)

Inductive exn : Type :=
| ZeroDivisionError
| KeyError (key : string).

(** The outcome of a run: a value together with the number of true
    divisions performed so far, or a raised exception. *)
Inductive outcome (A : Type) : Type :=
| Ok (a : A) (divisions : nat)
| Raise (e : exn).

Arguments Ok {A} a divisions.
Arguments Raise {A} e.

Definition M (A : Type) : Type := nat -> outcome A.

Definition ret {A} (a : A) : M A := fun n => Ok a n.

Definition bind {A B} (m : M A) (f : A -> M B) : M B :=
  fun n => match m n with
           | Ok a n' => f a n'
           | Raise e => Raise e
           end.

Definition raise {A} (e : exn) : M A := fun _ => Raise e.

Notation "x <- m ;; k" := (bind m (fun x => k))
  (at level 61, m at next level, right associativity).

(** Python's [a / b] on numbers. *)
Definition truediv (a b : Q) : M Q :=
  fun n => if Qeq_bool b 0 then Raise ZeroDivisionError else Ok (a / b) (S n).

(** Python's [d[k]] on a dictionary whose key [k] may be absent. *)
Definition getitem {A} (key : string) (field : option A) : M A :=
  match field with
  | Some a => ret a
  | None => raise (KeyError key)
  end.

(** ** Python values and formatted strings *)

(** A value that is either a number or not ([isinstance(v, (int, float))]). *)
Inductive pyval : Type :=
| VNum (q : Q)
| VStr (s : string)
| VNone.

(** An f-string before rendering: literal text and interpolated numbers. *)
Inductive frag : Type :=
| Lit (s : string)
| Num (q : Q)
| Int (z : Z).

Definition fstring : Type := list frag.

(** ** Rounding *)

(** [round(x)]: the nearest integer, ties to the even one. *)
Definition py_round (x : Q) : Z :=
  let f := Qfloor x in
  match Qcompare (x - inject_Z f) (1 # 2) with
  | Lt => f
  | Gt => (f + 1)%Z
  | Eq => if Z.even f then f else (f + 1)%Z
  end.

(** [round(x, 1)] and [round(x, 2)]. *)
Definition py_round1 (x : Q) : Q := inject_Z (py_round (x * 10)) / 10.
Definition py_round2 (x : Q) : Q := inject_Z (py_round (x * 100)) / 100.

Definition Qgtb (a b : Q) : bool := negb (Qle_bool a b).
Definition Qltb (a b : Q) : bool := negb (Qle_bool b a).
Definition Qgeb (a b : Q) : bool := Qle_bool b a.

(** [x in xs] on integers. *)
Definition Zmem (x : Z) (xs : list Z) : bool := existsb (Z.eqb x) xs.

(** [s.lower()] on ASCII text. *)
Definition lower_ascii (c : Ascii.ascii) : Ascii.ascii :=
  let n := Ascii.nat_of_ascii c in
  if (Nat.leb 65 n && Nat.leb n 90)%bool then Ascii.ascii_of_nat (n + 32) else c.

Fixpoint lower (s : string) : string :=
  match s with
  | EmptyString => EmptyString
  | String c r => String (lower_ascii c) (lower r)
  end.

(** [sub in s] on strings. *)
Definition contains (sub s : string) : bool :=
  match String.index 0 sub s with
  | Some _ => true
  | None => false
  end.

(** [sep.join(xs)]. *)
Fixpoint join (sep : string) (xs : list string) : string :=
  match xs with
  | [] => EmptyString
  | [x] => x
  | x :: r => (x ++ sep ++ join sep r)%string
  end.

(** A set of strings as a duplicate-free list, and [sorted]. *)
Definition set_add (x : string) (xs : list string) : list string :=
  if existsb (String.eqb x) xs then xs else xs ++ [x].

Fixpoint insert_sorted (x : string) (xs : list string) : list string :=
  match xs with
  | [] => [x]
  | y :: r => if String.leb x y then x :: xs else y :: insert_sorted x r
  end.

Definition sorted (xs : list string) : list string :=
  fold_right insert_sorted [] xs.

(** A dictionary literal with string keys, and [k in d] / [d[k]] on it. *)
Fixpoint lookup {A} (k : string) (d : list (string * A)) : option A :=
  match d with
  | [] => None
  | (k', v) :: r => if String.eqb k k' then Some v else lookup k r
  end.

(** A loop whose body may raise. *)
Fixpoint foldM {A B} (f : A -> B -> M A) (xs : list B) (acc : A) : M A :=
  match xs with
  | [] => ret acc
  | x :: r => acc' <- f acc x ;; foldM f r acc'
  end.

(** ** Weather data (the result of [get_weather_data]) *)

Record location : Type := {
  latitude : Q;
  longitude : Q;
  timezone : string;
  elevation : option Q
}.

(** An entry of ["hourly_forecast"]. *)
Record hour : Type := {
  time : string;
  temperature_celsius : Q;
  precipitation_mm : Q;
  wind_speed_kmh : Q;
  weather_code : Z;
  weather_description : string
}.

(** An entry of ["daily_forecast"]; its description is read with [.get]. *)
Record day : Type := {
  date : string;
  day_weather_code : Z;
  day_weather_description : option string;
  max_temperature_celsius : Q;
  min_temperature_celsius : Q;
  precipitation_sum_mm : Q
}.

(** The weather dictionary, by the keys the pipeline reads; a key that is
    absent is [None].  The empty dictionary has every key absent. *)
Record weather_data : Type := {
  wd_error : option string;
  wd_api_status : option string;
  wd_location : option location;
  wd_hourly_forecast : option (list hour);
  wd_daily_forecast : option (list day)
}.

Definition is_some {A} (o : option A) : bool :=
  match o with Some _ => true | None => false end.

(** Python truth of an optional dictionary: [None] and [{}] are false. *)
Definition truthy (w : option weather_data) : bool :=
  match w with
  | None => false
  | Some d =>
      is_some (wd_error d) || is_some (wd_api_status d) || is_some (wd_location d)
      || is_some (wd_hourly_forecast d) || is_some (wd_daily_forecast d)
  end.

(** ** Hazard detection: [check_for_hazards] *)

Record hazard : Type := {
  h_type : string;
  h_time : string;
  h_severity : string;
  h_precipitation : option Q;
  h_wind_speed : option Q
}.

Inductive hazard_report : Type :=
| HazardError (error : string)
| HazardReport (loc : location) (hazards : list hazard) (hazard_count : nat)
               (has_severe_hazards : bool).

(** The body of the loop over the hourly forecast: the events one sample
    appends, in order. *)
Definition hour_hazards (h : hour) : list hazard :=
  let code := weather_code h in
  (if Zmem code [71; 73; 75; 77; 85; 86]%Z then
     [ {| h_type := "Snow"; h_time := time h;
          h_severity := if Zmem code [75; 86]%Z then "high" else "medium";
          h_precipitation := None; h_wind_speed := None |} ]
   else if Zmem code [95; 96; 99]%Z then
     [ {| h_type := "Thunderstorm"; h_time := time h; h_severity := "high";
          h_precipitation := None; h_wind_speed := None |} ]
   else if Zmem code [66; 67]%Z then
     [ {| h_type := "Freezing Rain"; h_time := time h; h_severity := "high";
          h_precipitation := None; h_wind_speed := None |} ]
   else if Zmem code [45; 48]%Z then
     [ {| h_type := "Fog"; h_time := time h; h_severity := "medium";
          h_precipitation := None; h_wind_speed := None |} ]
   else [])
  ++ (if Qgtb (precipitation_mm h) 4 then
        [ {| h_type := "Heavy Rain"; h_time := time h; h_severity := "medium";
             h_precipitation := Some (precipitation_mm h); h_wind_speed := None |} ]
      else [])
  ++ (if Qgtb (wind_speed_kmh h) 30 then
        [ {| h_type := "High Winds"; h_time := time h;
             h_severity := if Qltb (wind_speed_kmh h) 50 then "medium" else "high";
             h_precipitation := None; h_wind_speed := Some (wind_speed_kmh h) |} ]
      else []).

Definition check_for_hazards (w : weather_data) : M hazard_report :=
  match wd_error w with
  | Some e => ret (HazardError e)
  | None =>
      hourly <- getitem "hourly_forecast" (wd_hourly_forecast w) ;;
      let hazards := flat_map hour_hazards hourly in
      loc <- getitem "location" (wd_location w) ;;
      ret (HazardReport loc hazards (List.length hazards)
             (existsb (fun h => String.eqb (h_severity h) "high") hazards))
  end.

(** ** Delay estimation: [estimate_weather_delay] *)

Record delay_factor : Type := {
  df_type : string;
  df_severity : string;
  df_delay_hours : Q
}.

(** ["delay_percentage"] is absent from the early-return dictionary. *)
Record delay_info : Type := {
  estimated_delay_hours : Q;
  delay_percentage : option Q;
  delay_factors : list delay_factor;
  impact_level : string
}.

(** (fraction of normal speed, fraction of route affected) *)
Definition weather_impacts : list (string * list (string * (Q * Q))) :=
  [ ("Snow",          [("high", (0.4, 0.6));  ("medium", (0.6, 0.5))]);
    ("Freezing Rain", [("high", (0.35, 0.5)); ("medium", (0.5, 0.4))]);
    ("Thunderstorm",  [("high", (0.5, 0.3));  ("medium", (0.7, 0.2))]);
    ("Fog",           [("high", (0.4, 0.4));  ("medium", (0.6, 0.3))]);
    ("Heavy Rain",    [("high", (0.6, 0.4));  ("medium", (0.7, 0.3))]);
    ("High Winds",    [("high", (0.7, 0.6));  ("medium", (0.8, 0.4))]) ].

Definition normal_speed_mph : Q := 55.

(** The body of the loop over the hazards, on the pair
    ([total_delay_hours], [delay_factors]). *)
Definition delay_step (trip_miles : Q) (acc : Q * list delay_factor) (hz : hazard)
  : M (Q * list delay_factor) :=
  let hazard_type := h_type hz in
  let severity := h_severity hz in
  match lookup hazard_type weather_impacts with
  | None => ret acc
  | Some by_severity =>
      match lookup severity by_severity with
      | None => ret acc
      | Some (speed_factor, route_affected) =>
          let affected_miles := trip_miles * route_affected in
          normal_segment_time <- truediv affected_miles normal_speed_mph ;;
          actual_segment_time <-
            truediv affected_miles (normal_speed_mph * speed_factor) ;;
          let segment_delay := actual_segment_time - normal_segment_time in
          if Qgtb segment_delay 0.25 then
            ret (fst acc + segment_delay,
                 snd acc ++ [ {| df_type := hazard_type; df_severity := severity;
                                 df_delay_hours := py_round1 segment_delay |} ])
          else ret acc
      end
  end.

Definition impact_of_total (total_delay_hours : Q) : string :=
  if Qltb total_delay_hours 0.5 then "Minimal"
  else if Qltb total_delay_hours 2 then "Moderate"
  else if Qltb total_delay_hours 4 then "Significant"
  else "Severe".

Definition no_delay : delay_info :=
  {| estimated_delay_hours := 0; delay_percentage := None;
     delay_factors := []; impact_level := "None" |}.

Definition is_nil {A} (xs : list A) : bool :=
  match xs with [] => true | _ => false end.

Definition estimate_weather_delay (hazards : list hazard) (trip_miles : Q)
  : M delay_info :=
  if is_nil hazards || Qle_bool trip_miles 0 then ret no_delay
  else
    normal_trip_time <- truediv trip_miles normal_speed_mph ;;
    acc <- foldM (delay_step trip_miles) hazards (0, []) ;;
    let total_delay_hours := fst acc in
    let impact := impact_of_total total_delay_hours in
    fraction <- truediv total_delay_hours normal_trip_time ;;
    ret {| estimated_delay_hours := py_round1 total_delay_hours;
           delay_percentage := Some (py_round1 (fraction * 100));
           delay_factors := snd acc;
           impact_level := impact |}.

(** ** Weather risk summary: [get_simple_weather_analysis] *)

Record analysis : Type := {
  summary : fstring;
  risk_level : string;
  risk_score : Z;
  hazards : list string;
  estimated_delay : delay_info
}.

(** The dictionary [analysis] as it is initialised. *)
Definition no_weather_data : analysis :=
  {| summary := [Lit "No weather data available"];
     risk_level := "Unknown";
     risk_score := 0;
     hazards := [];
     estimated_delay := no_delay |}.

(** ["error" not in data and data.get("api_status") == "success"] *)
Definition successful (w : weather_data) : bool :=
  negb (is_some (wd_error w))
  && match wd_api_status w with
     | Some s => String.eqb s "success"
     | None => false
     end.

(** One side's [check_for_hazards] call, [None] when it is not made. *)
Definition side_report (w : weather_data) : M (option hazard_report) :=
  if successful w then r <- check_for_hazards w ;; ret (Some r)
  else ret None.

(** [report.get("hazards", [])] behind the ["error" not in report] guard. *)
Definition report_hazards (r : option hazard_report) : list hazard :=
  match r with
  | Some (HazardReport _ hs _ _) => hs
  | _ => []
  end.

Definition hazard_label (side : string) (hz : hazard) : string :=
  (side ++ ": " ++ h_type hz ++ " (" ++ h_severity hz ++ " risk)")%string.

Definition first_day_description (w : weather_data) : string :=
  match wd_daily_forecast w with
  | Some (first_day :: _) =>
      match day_weather_description first_day with
      | Some text => text
      | None => "Unknown"
      end
  | _ => "Unknown"
  end.

Definition count_severity (sev : string) (hs : list hazard) : Z :=
  Z.of_nat (List.length (filter (fun h => String.eqb (h_severity h) sev) hs)).

(** The points one side adds to [risk_score]. *)
Definition risk_points (high_points medium_points : Z) (r : option hazard_report) : Z :=
  match r with
  | Some (HazardReport _ hs _ _) =>
      (count_severity "high" hs * high_points
       + count_severity "medium" hs * medium_points)%Z
  | _ => 0%Z
  end.

Definition risk_level_of (risk_score : Z) : string :=
  if (risk_score =? 0)%Z then "None"
  else if (risk_score <? 25)%Z then "Low"
  else if (risk_score <? 50)%Z then "Medium"
  else if (risk_score <? 75)%Z then "High"
  else "Severe".

Definition hazard_type_names : list string :=
  ["Snow"; "Thunderstorm"; "Freezing Rain"; "Fog"; "Heavy Rain"; "High Winds"].

Definition collect_hazard_types (labels : list string) : list string :=
  fold_left
    (fun types label =>
       fold_left
         (fun types h_type => if contains h_type label then set_add h_type types else types)
         hazard_type_names types)
    labels [].

Definition weather_summary (labels : list string) (delay_info : delay_info)
    (origin_weather destination_weather : string) : fstring :=
  if is_nil labels then
    [Lit "No significant weather hazards. Origin: "; Lit origin_weather;
     Lit ", Destination: "; Lit destination_weather]
  else
    let hazard_list := join ", " (sorted (collect_hazard_types labels)) in
    if Qgtb (estimated_delay_hours delay_info) 0 then
      [Lit "Weather conditions include "; Lit hazard_list; Lit ". Expect ";
       Lit (lower (impact_level delay_info)); Lit " delays of approximately ";
       Num (estimated_delay_hours delay_info); Lit " hours. Origin: ";
       Lit origin_weather; Lit ", Destination: "; Lit destination_weather]
    else
      [Lit "Weather conditions include "; Lit hazard_list;
       Lit ". No significant delays expected. Origin: "; Lit origin_weather;
       Lit ", Destination: "; Lit destination_weather].

Definition get_simple_weather_analysis
    (origin_weather_data destination_weather_data : option weather_data)
    (trip_miles : Q) : M analysis :=
  if negb (truthy origin_weather_data) || negb (truthy destination_weather_data)
  then ret no_weather_data
  else
    match origin_weather_data, destination_weather_data with
    | Some origin, Some destination =>
        origin_hazards <- side_report origin ;;
        dest_hazards <- side_report destination ;;
        let labels :=
          map (hazard_label "Origin") (report_hazards origin_hazards)
          ++ map (hazard_label "Destination") (report_hazards dest_hazards) in
        let all_hazards :=
          report_hazards origin_hazards ++ report_hazards dest_hazards in
        let origin_weather := first_day_description origin in
        let destination_weather := first_day_description destination in
        let risk_score :=
          Z.min (risk_points 20 10 origin_hazards + risk_points 15 5 dest_hazards) 100 in
        delay_info <- estimate_weather_delay all_hazards trip_miles ;;
        ret {| summary :=
                 weather_summary labels delay_info origin_weather destination_weather;
               risk_level := risk_level_of risk_score;
               risk_score := risk_score;
               hazards := labels;
               estimated_delay := delay_info |}
    | _, _ => ret no_weather_data (* excluded by the guard: [None] is false *)
    end.

(** ** Deadhead economics: [calculate_deadhead_analysis] *)

Record deadhead_fields : Type := {
  origin_deadhead_miles : Q;
  destination_deadhead_miles : Q;
  total_deadhead_miles : Q;
  origin_deadhead_ratio : Q;
  destination_deadhead_ratio : Q;
  total_deadhead_ratio : Q;
  paid_miles_percentage : Q;
  unpaid_miles_percentage : Q;
  severity : string;
  impact : string;
  deadhead_summary : fstring
}.

(** The two dictionaries the function returns, by their ["status"]. *)
Inductive deadhead_analysis : Type :=
| DeadheadInvalid (message : string)
| DeadheadSuccess (fields : deadhead_fields).

Definition status (a : deadhead_analysis) : string :=
  match a with
  | DeadheadInvalid _ => "invalid"
  | DeadheadSuccess _ => "success"
  end.

(** [round(a / b, 2) if b > 0 else 0] *)
Definition ratio2 (a b : Q) : M Q :=
  if Qgtb b 0 then x <- truediv a b ;; ret (py_round2 x) else ret 0.

(** [round((a / b) * 100, 1) if b > 0 else 0] *)
Definition percentage1 (a b : Q) : M Q :=
  if Qgtb b 0 then x <- truediv a b ;; ret (py_round1 (x * 100)) else ret 0.

Definition deadhead_severity (total_deadhead_ratio : Q) : string * string :=
  if Qle_bool total_deadhead_ratio 0.1 then ("Excellent", "Very Low")
  else if Qle_bool total_deadhead_ratio 0.2 then ("Good", "Low")
  else if Qle_bool total_deadhead_ratio 0.3 then ("Average", "Moderate")
  else if Qle_bool total_deadhead_ratio 0.5 then ("Poor", "High")
  else ("Very Poor", "Severe").

Definition calculate_deadhead_analysis
    (origin_deadhead_miles destination_deadhead_miles trip_miles : Q)
  : M deadhead_analysis :=
  if Qle_bool trip_miles 0 then
    ret (DeadheadInvalid "Trip miles must be greater than zero")
  else
    let total_deadhead := origin_deadhead_miles + destination_deadhead_miles in
    origin_deadhead_ratio <- ratio2 origin_deadhead_miles trip_miles ;;
    destination_deadhead_ratio <- ratio2 destination_deadhead_miles trip_miles ;;
    total_deadhead_ratio <- ratio2 total_deadhead trip_miles ;;
    let total_distance := trip_miles + total_deadhead in
    paid_miles_percentage <- percentage1 trip_miles total_distance ;;
    unpaid_miles_percentage <- percentage1 total_deadhead total_distance ;;
    let '(severity, impact) := deadhead_severity total_deadhead_ratio in
    let focus :=
      if Qgtb origin_deadhead_miles destination_deadhead_miles
      then "Pickup deadhead is your main concern."
      else if Qgtb destination_deadhead_miles origin_deadhead_miles
      then "Consider your next load after delivery."
      else "" in
    ret (DeadheadSuccess
           {| origin_deadhead_miles := origin_deadhead_miles;
              destination_deadhead_miles := destination_deadhead_miles;
              total_deadhead_miles := total_deadhead;
              origin_deadhead_ratio := origin_deadhead_ratio;
              destination_deadhead_ratio := destination_deadhead_ratio;
              total_deadhead_ratio := total_deadhead_ratio;
              paid_miles_percentage := paid_miles_percentage;
              unpaid_miles_percentage := unpaid_miles_percentage;
              severity := severity;
              impact := impact;
              deadhead_summary :=
                [Lit "Deadhead is "; Lit (lower severity); Lit " at ";
                 Int (py_round (total_deadhead_ratio * 100));
                 Lit "% of loaded miles. "; Lit focus] |}).

(** ** Load quality score: [calculate_load_score] *)

Record load_score : Type := {
  score : Z;
  category : string;
  key_factors : list fstring
}.

Definition score_category (final_score : Z) : string :=
  if (final_score >=? 80)%Z then "Excellent"
  else if (final_score >=? 65)%Z then "Good"
  else if (final_score >=? 45)%Z then "Average"
  else if (final_score >=? 25)%Z then "Poor"
  else "Very Poor".

(** The running state of the scorer: [quality_score] and [factors]. *)
Definition score_state : Type := (Q * list fstring)%type.

(** Factor 1: rate comparison (up to +/- 25 points). *)
Definition factor_rate (rate_comparison : pyval) (st : score_state) : M score_state :=
  let '(quality_score, factors) := st in
  match rate_comparison with
  | VNum rc =>
      let capped_difference := Qmax (Qmin rc 30) (-30) in
      unit_score <- truediv 25 30 ;;
      let rate_score := capped_difference * unit_score in
      ret (quality_score + rate_score,
           if Qgtb rc 0 then
             factors ++ [[Num (py_round1 rc); Lit "% above market rate"]]
           else if Qltb rc 0 then
             factors ++ [[Num (Qabs (py_round1 rc)); Lit "% below market rate"]]
           else factors)
  | _ => ret (quality_score, factors)
  end.

(** Factor 2: weather risk (up to -15 points). *)
Definition factor_weather_risk (weather_risk_score : Q) (st : score_state)
  : M score_state :=
  let '(quality_score, factors) := st in
  scaled <- truediv weather_risk_score 6.67 ;;
  let weather_impact := - scaled in
  ret (quality_score + weather_impact,
       if Qgtb weather_risk_score 50 then factors ++ [[Lit "High weather risk"]]
       else if Qgtb weather_risk_score 25 then factors ++ [[Lit "Moderate weather risk"]]
       else factors).

(** Factor 3: weather delay impact (up to -15 points). *)
Definition factor_weather_delay (weather_delay_hours : Q) (st : score_state)
  : score_state :=
  let '(quality_score, factors) := st in
  if Qgtb weather_delay_hours 0 then
    let delay_impact := - Qmin (weather_delay_hours * 3) 15 in
    (quality_score + delay_impact,
     if Qgeb weather_delay_hours 4 then
       factors ++ [[Lit "Severe delay risk ("; Num weather_delay_hours; Lit " hrs)"]]
     else if Qgeb weather_delay_hours 2 then
       factors ++ [[Lit "Significant delay risk ("; Num weather_delay_hours; Lit " hrs)"]]
     else factors)
  else (quality_score, factors).

(** Factor 4: deadhead impact (up to -20 points). *)
Definition factor_deadhead (deadhead_ratio : Q) (st : score_state) : score_state :=
  let '(quality_score, factors) := st in
  if Qgtb deadhead_ratio 0 then
    let deadhead_impact := - Qmin (deadhead_ratio * 40) 20 in
    (quality_score + deadhead_impact,
     if Qgtb deadhead_ratio 0.4 then
       factors ++ [[Lit "Excessive deadhead ("; Int (py_round (deadhead_ratio * 100));
                    Lit "%)"]]
     else if Qgtb deadhead_ratio 0.25 then
       factors ++ [[Lit "High deadhead ("; Int (py_round (deadhead_ratio * 100));
                    Lit "%)"]]
     else factors)
  else (quality_score, factors).

(** Factor 5: driver pay (up to +15 points). *)
Definition factor_driver_pay (driver_pay : pyval) (st : score_state) : score_state :=
  let '(quality_score, factors) := st in
  match driver_pay with
  | VNum pay =>
      if Qgtb pay 0 then
        if Qgtb pay 500 then (quality_score + 15, factors ++ [[Lit "Excellent pay"]])
        else if Qgtb pay 350 then (quality_score + 10, factors ++ [[Lit "Good pay"]])
        else if Qgtb pay 250 then (quality_score + 5, factors)
        else (quality_score + 0, factors)
      else (quality_score, factors)
  | _ => (quality_score, factors)
  end.

(** The body of [calculate_load_score] up to (not including) the final
    clamp: the accumulated [quality_score] and the list [factors] before it
    is cut to three.  [trip_miles] is a parameter the body never reads. *)
Definition score_and_factors
    (rate_comparison : pyval) (weather_risk_score deadhead_ratio trip_miles : Q)
    (driver_pay : pyval) (weather_delay_hours : Q) : M score_state :=
  st <- factor_rate rate_comparison (50, []) ;;
  st <- factor_weather_risk weather_risk_score st ;;
  let st := factor_weather_delay weather_delay_hours st in
  let st := factor_deadhead deadhead_ratio st in
  let st := factor_driver_pay driver_pay st in
  ret st.

Definition calculate_load_score
    (rate_comparison : pyval) (weather_risk_score deadhead_ratio trip_miles : Q)
    (driver_pay : pyval) (weather_delay_hours : Q) : M load_score :=
  st <- score_and_factors rate_comparison weather_risk_score deadhead_ratio
          trip_miles driver_pay weather_delay_hours ;;
  let '(quality_score, factors) := st in
  let final_score := py_round (Qmax 0 (Qmin 100 quality_score)) in
  ret {| score := final_score;
         category := score_category final_score;
         key_factors := firstn 3 factors |}.

(** ** Rate comparison: [get_rate_comparison] *)

Record rate_comparison : Type := {
  broker_rate_per_mile : pyval;
  market_rate_per_mile : pyval;
  difference_percentage : pyval;
  comparison : fstring
}.

(** [rate is None or rate <= 0] *)
Definition unavailable (rate : option Q) : bool :=
  match rate with
  | None => true
  | Some r => Qle_bool r 0
  end.

(** ["Not Available" if rate is None or rate <= 0 else rate] *)
Definition echo_rate (rate : option Q) : pyval :=
  match rate with
  | None => VStr "Not Available"
  | Some r => if Qle_bool r 0 then VStr "Not Available" else VNum r
  end.

Definition not_available (load_rate market_rate : option Q) : rate_comparison :=
  {| broker_rate_per_mile := echo_rate load_rate;
     market_rate_per_mile := echo_rate market_rate;
     difference_percentage := VStr "N/A";
     comparison := [Lit "Rate comparison not possible"] |}.

Definition get_rate_comparison (load_rate market_rate : option Q) : M rate_comparison :=
  if unavailable load_rate || unavailable market_rate then
    ret (not_available load_rate market_rate)
  else
    match load_rate, market_rate with
    | Some load, Some market =>
        relative <- truediv (load - market) market ;;
        let difference_percentage := relative * 100 in
        ret {| broker_rate_per_mile := VNum load;
               market_rate_per_mile := VNum market;
               difference_percentage := VNum (py_round2 difference_percentage);
               comparison :=
                 if Qgtb difference_percentage 0 then
                   [Num (Qabs (py_round2 difference_percentage)); Lit "% above market rate"]
                 else if Qltb difference_percentage 0 then
                   [Num (Qabs (py_round2 difference_percentage)); Lit "% below market rate"]
                 else [Lit "At market rate"] |}
    | _, _ =>
        ret (not_available load_rate market_rate) (* excluded by the guard *)
    end.

(** ** Vocabulary of the specification and sample inputs *)


(** The empty dictionary, and weather data that is entirely absent. *)
Definition empty_dict : weather_data :=
  {| wd_error := None; wd_api_status := None; wd_location := None;
     wd_hourly_forecast := None; wd_daily_forecast := None |}.

Definition absent (w : option weather_data) : Prop :=
  w = None \/ w = Some empty_dict.

(** A side that is error-tagged or whose [api_status] is not "success". *)
Definition unusable (w : weather_data) : Prop :=
  wd_error w <> None \/ wd_api_status w <> Some "success".

(** A side as [get_weather_data] returns it on success. *)
Definition usable (w : weather_data) (loc : location) (hourly : list hour) : Prop :=
  wd_error w = None /\ wd_api_status w = Some "success"
  /\ wd_location w = Some loc /\ wd_hourly_forecast w = Some hourly.

(** A sample with heavy snow (code 75), 5 mm of precipitation and a wind
    of 40 km/h. *)
Definition snow_rain_wind : hour :=
  {| time := "2024-01-01T00:00"; temperature_celsius := -2;
     precipitation_mm := 5; wind_speed_kmh := 40; weather_code := 75;
     weather_description := "Heavy snow fall" |}.

(** The error-tagged result of [get_weather_data], and a successful one
    whose hourly forecast holds the sample above. *)
Definition weather_error : weather_data :=
  {| wd_error := Some "API error: 500"; wd_api_status := Some "error";
     wd_location := None; wd_hourly_forecast := None; wd_daily_forecast := None |}.

Definition weather_snow : weather_data :=
  {| wd_error := None; wd_api_status := Some "success";
     wd_location :=
       Some {| latitude := 40; longitude := -75; timezone := "UTC";
               elevation := None |};
     wd_hourly_forecast := Some [snow_rain_wind];
     wd_daily_forecast := Some [] |}.


Ltac case_conditions :=
  repeat match goal with
         | |- context [if ?b then _ else _] => destruct b
         end.

Ltac case_hypotheses :=
  repeat match goal with
         | H : context [if ?b then _ else _] |- _ => destruct b
         end.

(** * Further vocabulary and the rest of the pipeline *)

From Stdlib Require Import DecimalString.

(** The table of the delay estimator knows the (type, severity) pair of a
    hazard. *)
Definition in_impact_table (hz : hazard) : Prop :=
  exists by_severity speed route,
    lookup (h_type hz) weather_impacts = Some by_severity
    /\ lookup (h_severity hz) by_severity = Some (speed, route).

Ltac in_table := unfold in_impact_table; do 3 eexists; split; reflexivity.


(** The points each factor of the scorer adds to or takes from the base
    score of 50, as the factor steps compute them. *)
Definition rate_points (rate_comparison : pyval) : Q :=
  match rate_comparison with
  | VNum rc => Qmax (Qmin rc 30) (-30) * (25 / 30)
  | _ => 0
  end.

Definition delay_penalty (weather_delay_hours : Q) : Q :=
  if Qgtb weather_delay_hours 0 then Qmin (weather_delay_hours * 3) 15 else 0.

Definition deadhead_penalty (deadhead_ratio : Q) : Q :=
  if Qgtb deadhead_ratio 0 then Qmin (deadhead_ratio * 40) 20 else 0.

Definition pay_bonus (driver_pay : pyval) : Q :=
  match driver_pay with
  | VNum pay =>
      if Qgtb pay 0 then
        if Qgtb pay 500 then 15
        else if Qgtb pay 350 then 10
        else if Qgtb pay 250 then 5
        else 0
      else 0
  | _ => 0
  end.

(** ** A load match, by the keys the pipeline reads *)

(** A place ([matchingAssetInfo.origin] or [.destination.place]). *)
Record place : Type := {
  city : option string;
  stateProv : option string;
  place_latitude : option Q;
  place_longitude : option Q
}.

(** A match of the load search.  A chain of [.get(key, {})] ending in
    [.get(leaf, 0)] is one optional field: a key missing at any level reads
    as the default. *)
Record load : Type := {
  matchId : option string;
  asset_origin : option place;              (* matchingAssetInfo.origin *)
  asset_destination_place : option place;   (* matchingAssetInfo.destination.place *)
  equipmentType : option string;            (* matchingAssetInfo.equipmentType *)
  tripLength_miles : option Q;              (* tripLength.miles *)
  estimatedRatePerMile : option Q;
  private_rateUsd : option Q;    (* privateNetworkRateInfo.bookable.rate.rateUsd *)
  loadBoard_rateUsd : option Q;  (* loadBoardRateInfo.nonBookable.rateUsd *)
  originDeadheadMiles : option Q;           (* originDeadheadMiles.miles *)
  destinationDeadheadMiles : option Q       (* destinationDeadheadMiles.miles *)
}.

(** [d.get(key, 0)] *)
Definition get0 (field : option Q) : Q :=
  match field with
  | Some v => v
  | None => 0
  end.

(** Python truth of a number: zero is false. *)
Definition nonzero (q : Q) : bool := negb (Qeq_bool q 0).

(** ** Broker rate and driver pay *)

Definition get_broker_rate_per_mile (l : load) : M (option Q) :=
  if Qgtb (get0 (estimatedRatePerMile l)) 0 then
    ret (estimatedRatePerMile l)
  else
    let trip_length_miles := get0 (tripLength_miles l) in
    if Qle_bool trip_length_miles 0 then ret None
    else
      let private_rate := get0 (private_rateUsd l) in
      if Qgtb private_rate 0 then
        rate <- truediv private_rate trip_length_miles ;; ret (Some rate)
      else
        let load_board_rate := get0 (loadBoard_rateUsd l) in
        if Qgtb load_board_rate 0 then
          rate <- truediv load_board_rate trip_length_miles ;; ret (Some rate)
        else ret None.

Definition get_total_load_amount (l : load) : option Q :=
  let private_rate := get0 (private_rateUsd l) in
  if Qgtb private_rate 0 then Some private_rate
  else
    let load_board_rate := get0 (loadBoard_rateUsd l) in
    if Qgtb load_board_rate 0 then Some load_board_rate
    else None.

Record driver_pay_estimate : Type := {
  amount : pyval;
  calculation_method : string
}.

(** [x and x > 0] on an optional number. *)
Definition positive (x : option Q) : bool :=
  match x with
  | Some v => nonzero v && Qgtb v 0
  | None => false
  end.

Definition calculate_driver_pay (l : load) : M driver_pay_estimate :=
  let trip_length_miles := get0 (tripLength_miles l) in
  let total_load_amount := get_total_load_amount l in
  if positive total_load_amount then
    let driver_pay := get0 total_load_amount * 0.25 in
    ret {| amount := VNum (py_round2 driver_pay);
           calculation_method := "percentage_of_total" |}
  else
    rate_per_mile <- get_broker_rate_per_mile l ;;
    if positive rate_per_mile && Qgtb trip_length_miles 0 then
      let total_calculated := get0 rate_per_mile * trip_length_miles in
      let driver_pay := total_calculated * 0.25 in
      ret {| amount := VNum (py_round2 driver_pay);
             calculation_method := "calculated_from_rate_per_mile" |}
    else
      ret {| amount := VStr "Not Available";
             calculation_method := "insufficient_data" |}.


(** ** Weather provider: [get_weather_description] and [get_weather_data] *)

(** [str(n)] for an integer. *)
Definition string_of_Z (z : Z) : string := NilZero.string_of_int (Z.to_int z).

Fixpoint lookupZ {A} (k : Z) (d : list (Z * A)) : option A :=
  match d with
  | [] => None
  | (k', v) :: r => if (k =? k')%Z then Some v else lookupZ k r
  end.

Definition weather_codes : list (Z * string) :=
  [ (0, "Clear sky"); (1, "Mainly clear"); (2, "Partly cloudy"); (3, "Overcast");
    (45, "Fog"); (48, "Depositing rime fog");
    (51, "Light drizzle"); (53, "Moderate drizzle"); (55, "Dense drizzle");
    (56, "Light freezing drizzle"); (57, "Dense freezing drizzle");
    (61, "Slight rain"); (63, "Moderate rain"); (65, "Heavy rain");
    (66, "Light freezing rain"); (67, "Heavy freezing rain");
    (71, "Slight snow fall"); (73, "Moderate snow fall"); (75, "Heavy snow fall");
    (77, "Snow grains");
    (80, "Slight rain showers"); (81, "Moderate rain showers");
    (82, "Violent rain showers");
    (85, "Slight snow showers"); (86, "Heavy snow showers");
    (95, "Thunderstorm"); (96, "Thunderstorm with slight hail");
    (99, "Thunderstorm with heavy hail") ]%Z.

Definition get_weather_description (code : Z) : string :=
  match lookupZ code weather_codes with
  | Some description => description
  | None => ("Unknown weather code: " ++ string_of_Z code)%string
  end.

(** The parsed body of the provider's answer, by the keys that are read. *)
Record raw_hourly : Type := {
  raw_hourly_time : option (list string);
  raw_hourly_temperature_2m : option (list Q);
  raw_hourly_precipitation : option (list Q);
  raw_hourly_windspeed_10m : option (list Q);
  raw_hourly_weathercode : option (list Z)
}.

Record raw_daily : Type := {
  raw_daily_time : option (list string);
  raw_daily_weathercode : option (list Z);
  raw_daily_temperature_2m_max : option (list Q);
  raw_daily_temperature_2m_min : option (list Q);
  raw_daily_precipitation_sum : option (list Q)
}.

Record raw_forecast : Type := {
  raw_latitude : option Q;
  raw_longitude : option Q;
  raw_timezone : option string;
  raw_elevation : option Q;
  raw_hourly_block : option raw_hourly;
  raw_daily_block : option raw_daily
}.

(** What [requests.get] and [response.json()] did: the request raised (the
    text is [str(e)]), or a response came with its status code and a body
    whose parsing raised (left) or gave data (right). *)
Inductive http_outcome : Type :=
| RequestRaised (message : string)
| Response (status_code : Z) (json : string + raw_forecast).

(** The body of the [try]: a value, or the text [str(e)] of the exception
    that the handler catches. *)
Definition attempt (A : Type) : Type := (string + A)%type.

Definition attempt_bind {A B} (m : attempt A) (f : A -> attempt B) : attempt B :=
  match m with
  | inl message => inl message
  | inr a => f a
  end.

Notation "x <~ m ;; k" := (attempt_bind m (fun x => k))
  (at level 61, m at next level, right associativity).

(** [d[name]]: a missing key raises [KeyError(name)], whose text is the
    quoted name. *)
Definition key {A} (name : string) (field : option A) : attempt A :=
  match field with
  | Some a => inr a
  | None => inl ("'" ++ name ++ "'")%string
  end.

(** [xs[i]] *)
Definition item {A} (xs : list A) (i : nat) : attempt A :=
  match nth_error xs i with
  | Some x => inr x
  | None => inl "list index out of range"
  end.

(** [for i in indices: result.append(body(i))] *)
Fixpoint for_each {A} (body : nat -> attempt A) (indices : list nat)
  : attempt (list A) :=
  match indices with
  | [] => inr []
  | i :: rest =>
      x <~ body i ;;
      xs <~ for_each body rest ;;
      inr (x :: xs)
  end.

Definition hourly_entry (hourly_time : list string)
    (hourly_temp hourly_precip hourly_wind : list Q) (hourly_weather : list Z)
    (i : nat) : attempt hour :=
  t <~ item hourly_time i ;;
  temperature <~ item hourly_temp i ;;
  precipitation <~ item hourly_precip i ;;
  wind <~ item hourly_wind i ;;
  code <~ item hourly_weather i ;;
  inr {| time := t; temperature_celsius := temperature;
         precipitation_mm := precipitation; wind_speed_kmh := wind;
         weather_code := code;
         weather_description := get_weather_description code |}.

Definition daily_entry (daily_time : list string) (daily_weather : list Z)
    (daily_temp_max daily_temp_min daily_precip : list Q) (i : nat) : attempt day :=
  d <~ item daily_time i ;;
  code <~ item daily_weather i ;;
  temp_max <~ item daily_temp_max i ;;
  temp_min <~ item daily_temp_min i ;;
  precipitation <~ item daily_precip i ;;
  inr {| date := d; day_weather_code := code;
         day_weather_description := Some (get_weather_description code);
         max_temperature_celsius := temp_max;
         min_temperature_celsius := temp_min;
         precipitation_sum_mm := precipitation |}.

(** The statements of the [try] after [data = response.json()]. *)
Definition weather_result (data : raw_forecast) : attempt weather_data :=
  lat <~ key "latitude" (raw_latitude data) ;;
  lon <~ key "longitude" (raw_longitude data) ;;
  tz <~ key "timezone" (raw_timezone data) ;;
  let loc := {| latitude := lat; longitude := lon; timezone := tz;
                elevation := raw_elevation data |} in
  hourly <~ key "hourly" (raw_hourly_block data) ;;
  hourly_time <~ key "time" (raw_hourly_time hourly) ;;
  hourly_temp <~ key "temperature_2m" (raw_hourly_temperature_2m hourly) ;;
  hourly_precip <~ key "precipitation" (raw_hourly_precipitation hourly) ;;
  hourly_wind <~ key "windspeed_10m" (raw_hourly_windspeed_10m hourly) ;;
  hourly_weather <~ key "weathercode" (raw_hourly_weathercode hourly) ;;
  hourly_forecast <~
    for_each (hourly_entry hourly_time hourly_temp hourly_precip hourly_wind
                hourly_weather)
      (seq 0 (Nat.min 24 (List.length hourly_time))) ;;
  daily <~ key "daily" (raw_daily_block data) ;;
  daily_time <~ key "time" (raw_daily_time daily) ;;
  daily_weather <~ key "weathercode" (raw_daily_weathercode daily) ;;
  daily_temp_max <~ key "temperature_2m_max" (raw_daily_temperature_2m_max daily) ;;
  daily_temp_min <~ key "temperature_2m_min" (raw_daily_temperature_2m_min daily) ;;
  daily_precip <~ key "precipitation_sum" (raw_daily_precipitation_sum daily) ;;
  daily_forecast <~
    for_each (daily_entry daily_time daily_weather daily_temp_max daily_temp_min
                daily_precip)
      (seq 0 (List.length daily_time)) ;;
  inr {| wd_error := None; wd_api_status := Some "success";
         wd_location := Some loc;
         wd_hourly_forecast := Some hourly_forecast;
         wd_daily_forecast := Some daily_forecast |}.

Definition weather_failure (message api_status : string) : weather_data :=
  {| wd_error := Some message; wd_api_status := Some api_status;
     wd_location := None; wd_hourly_forecast := None; wd_daily_forecast := None |}.

(** [get_weather_data], given what the HTTP exchange did.  The coordinates
    and [forecast_days] only go into the request. *)
Definition get_weather_data (lat lon : Q) (forecast_days : Z) (http : http_outcome)
  : weather_data :=
  match http with
  | RequestRaised message =>
      weather_failure ("Exception: " ++ message) "exception"
  | Response status_code json =>
      if (status_code =? 200)%Z then
        match data <~ json ;; weather_result data with
        | inr result => result
        | inl message => weather_failure ("Exception: " ++ message) "exception"
        end
      else
        weather_failure ("API error: " ++ string_of_Z status_code) "error"
  end.

(** The provider's body holds the five hourly lists, resp. the five daily
    lists. *)
Definition hourly_lists (data : raw_forecast) (times : list string)
    (temps precs winds : list Q) (codes : list Z) : Prop :=
  exists block,
    raw_hourly_block data = Some block
    /\ raw_hourly_time block = Some times
    /\ raw_hourly_temperature_2m block = Some temps
    /\ raw_hourly_precipitation block = Some precs
    /\ raw_hourly_windspeed_10m block = Some winds
    /\ raw_hourly_weathercode block = Some codes.

Definition daily_lists (data : raw_forecast) (days : list string) (codes : list Z)
    (highs lows precs : list Q) : Prop :=
  exists block,
    raw_daily_block data = Some block
    /\ raw_daily_time block = Some days
    /\ raw_daily_weathercode block = Some codes
    /\ raw_daily_temperature_2m_max block = Some highs
    /\ raw_daily_temperature_2m_min block = Some lows
    /\ raw_daily_precipitation_sum block = Some precs.

(** A forecast of 30 identical stormy hours and one day. *)
Definition raw_30_hours : raw_forecast :=
  {| raw_latitude := Some 40; raw_longitude := Some (-75);
     raw_timezone := Some "UTC"; raw_elevation := None;
     raw_hourly_block :=
       Some {| raw_hourly_time := Some (repeat "2024-01-01T00:00" 30);
               raw_hourly_temperature_2m := Some (repeat (-2) 30);
               raw_hourly_precipitation := Some (repeat 5 30);
               raw_hourly_windspeed_10m := Some (repeat 40 30);
               raw_hourly_weathercode := Some (repeat 75%Z 30) |};
     raw_daily_block :=
       Some {| raw_daily_time := Some ["2024-01-01"];
               raw_daily_weathercode := Some [75%Z];
               raw_daily_temperature_2m_max := Some [0];
               raw_daily_temperature_2m_min := Some [-5];
               raw_daily_precipitation_sum := Some [12] |} |}.

(** ** The orchestrator: [map_equipment_code_to_rateview],
    [process_loads_and_compare_rates], [process_freight_data], [handler] *)

(** [x in xs] on strings. *)
Definition str_mem (x : string) (xs : list string) : bool :=
  existsb (String.eqb x) xs.

Definition van_codes : list string :=
  ["V"; "VA"; "VB"; "VC"; "V2"; "VZ"; "VH"; "VI"; "VN"; "VG"; "VL"; "VV"; "VM";
   "VT"; "VF"; "VR"; "VP"; "VW"].

Definition reefer_codes : list string :=
  ["R"; "RA"; "R2"; "RZ"; "RN"; "RL"; "RM"; "RG"; "RV"; "RP"].

Definition flatbed_codes : list string :=
  ["F"; "FA"; "FT"; "FM"; "FD"; "FR"; "FO"; "FN"; "FS"].

Definition map_equipment_code_to_rateview (equipment_code : string) : string :=
  if str_mem equipment_code van_codes then "VAN"
  else if str_mem equipment_code reefer_codes then "REEFER"
  else if str_mem equipment_code flatbed_codes then "FLATBED"
  else "FLATBED".

(** A JSON value that is passed through unread. *)
#[local] Unset Elimination Schemes.
Inductive json : Type :=
| JNull
| JNum (q : Q)
| JStr (s : string)
| JList (items : list json)
| JDict (entries : list (string * json)).
#[local] Set Elimination Schemes.

(** The rate provider's answer (what [call_rateview_api] returns), by the
    keys that are read or copied. *)
Record per_mile : Type := {
  rateUsd : option Q;
  highUsd : option json;
  lowUsd : option json
}.

Record rate_data : Type := {
  rate_mileage : option json;
  rate_reports : option json;
  rate_companies : option json;
  rate_standardDeviation : option json;
  rate_perMile : option per_mile;
  rate_perTrip : option json;
  rate_averageFuelSurchargePerMileUsd : option json;
  rate_averageFuelSurchargePerTripUsd : option json
}.

(** A dictionary that is a response object, and also the [{"error": ...}]
    dictionary built for [market_data]. *)
Record response_obj : Type := {
  response_rate : option rate_data;
  response_escalation : option json;
  response_error : option json
}.

Record rate_response : Type := {
  rate_response_response : option response_obj
}.

Record rateview_response : Type := {
  rateview_error : option json;
  rateview_rateResponses : option (list rate_response)
}.

(** The external collaborators: the HTTP exchange of the weather request
    for given coordinates, and the result of [call_rateview_api]. *)
Record world : Type := {
  weather_http : Q -> Q -> http_outcome;
  call_rateview_api : place -> place -> string -> string -> rateview_response
}.

Definition empty_place : place :=
  {| city := None; stateProv := None; place_latitude := None;
     place_longitude := None |}.

(** Python truth of a place dictionary: empty is false. *)
Definition place_truthy (p : place) : bool :=
  is_some (city p) || is_some (stateProv p) || is_some (place_latitude p)
  || is_some (place_longitude p).

(** Python truth of [d.get(key)] for a number: missing and zero are false. *)
Definition number_truthy (x : option Q) : bool :=
  match x with
  | Some v => nonzero v
  | None => false
  end.

Definition rate_data_truthy (r : rate_data) : bool :=
  is_some (rate_mileage r) || is_some (rate_reports r) || is_some (rate_companies r)
  || is_some (rate_standardDeviation r) || is_some (rate_perMile r)
  || is_some (rate_perTrip r)
  || is_some (rate_averageFuelSurchargePerMileUsd r)
  || is_some (rate_averageFuelSurchargePerTripUsd r).

Definition response_truthy (r : response_obj) : bool :=
  is_some (response_rate r) || is_some (response_escalation r)
  || is_some (response_error r).

(** The weather lookup of one place: made only if both coordinates are
    true. *)
Definition place_weather (env : world) (p : place) : option weather_data :=
  if number_truthy (place_latitude p) && number_truthy (place_longitude p) then
    Some (get_weather_data (get0 (place_latitude p)) (get0 (place_longitude p)) 2
            (weather_http env (get0 (place_latitude p))
               (get0 (place_longitude p))))
  else None.

(** The reading of the rate provider's answer:
    ([market_rate_per_mile], [market_data], [rate_data]).  On typed data the
    [try] block cannot raise. *)
Definition read_rateview (response : rateview_response)
  : option Q * option response_obj * option rate_data :=
  match rateview_error response with
  | Some e =>
      (None,
       Some {| response_rate := None; response_escalation := None;
               response_error := Some e |},
       None)
  | None =>
      match rateview_rateResponses response with
      | Some (first :: _) =>
          let response_obj :=
            match rate_response_response first with
            | Some r => r
            | None => {| response_rate := None; response_escalation := None;
                         response_error := None |}
            end in
          match response_rate response_obj with
          | Some rate_data =>
              (match rate_perMile rate_data with
               | Some per_mile => rateUsd per_mile
               | None => None
               end,
               Some response_obj, Some rate_data)
          | None => (None, Some response_obj, None)
          end
      | _ => (None, None, None)
      end
  end.

(** The ["marketData"] entry of a processed match: the copies of the eight
    keys of [rate_data] (a missing key is copied as its default) with the
    escalation data when there is some, or the error. *)
Inductive market_data_entry : Type :=
| MarketRates (rate : rate_data) (escalation : option json)
| MarketError (error : json).

Definition market_data_of (market_data : option response_obj)
    (rate_data : option rate_data) : option market_data_entry :=
  let error_entry :=
    match market_data with
    | Some m =>
        if response_truthy m then
          match response_error m with
          | Some e => Some (MarketError e)
          | None => None
          end
        else None
    | None => None
    end in
  match rate_data with
  | Some r =>
      if rate_data_truthy r then
        Some (MarketRates r
                match market_data with
                | Some m => if response_truthy m then response_escalation m else None
                | None => None
                end)
      else error_entry
  | None => error_entry
  end.

Record processed_match : Type := {
  pm_matchId : string;
  pm_origin : string * string;
  pm_destination : string * string;
  pm_equipment_code : string;
  pm_rateviewType : string;
  pm_tripMiles : Q;
  pm_rateComparison : rate_comparison;
  pm_driver_pay : driver_pay_estimate;
  pm_weatherInfo : analysis;
  pm_deadheadAnalysis : deadhead_analysis;
  pm_loadQuality : load_score;
  pm_marketData : option market_data_entry
}.

Definition get_string (field : option string) : string :=
  match field with
  | Some s => s
  | None => ""
  end.

(** The arguments the orchestrator hands to the scorer. *)
Definition score_rate_argument (c : rate_comparison) : pyval :=
  match difference_percentage c with
  | VStr s => if String.eqb s "N/A" then VNum 0 else VStr s
  | v => v
  end.

Definition score_deadhead_argument (a : deadhead_analysis) : Q :=
  match a with
  | DeadheadSuccess f => total_deadhead_ratio f
  | DeadheadInvalid _ => 0
  end.

Definition score_pay_argument (p : driver_pay_estimate) : pyval :=
  match amount p with
  | VNum x => VNum x
  | _ => VNum 0
  end.

(** The body of the loop over the matches: [None] when the match is
    skipped by [continue]. *)
Definition process_match (env : world) (access_token : string) (m : load)
  : M (option processed_match) :=
  let match_id := get_string (matchId m) in
  let origin :=
    match asset_origin m with Some p => p | None => empty_place end in
  let destination_place :=
    match asset_destination_place m with Some p => p | None => empty_place end in
  if negb (place_truthy origin) || negb (place_truthy destination_place) then
    ret None
  else
    let equipment_code := get_string (equipmentType m) in
    let rateview_equipment := map_equipment_code_to_rateview equipment_code in
    let trip_miles := get0 (tripLength_miles m) in
    broker_rate_per_mile <- get_broker_rate_per_mile m ;;
    driver_pay <- calculate_driver_pay m ;;
    let origin_weather_data := place_weather env origin in
    let destination_weather_data := place_weather env destination_place in
    weather_analysis <-
      get_simple_weather_analysis origin_weather_data destination_weather_data
        trip_miles ;;
    let weather_delay_hours :=
      estimated_delay_hours (estimated_delay weather_analysis) in
    let origin_deadhead_miles := get0 (originDeadheadMiles m) in
    let destination_deadhead_miles := get0 (destinationDeadheadMiles m) in
    deadhead_analysis <-
      calculate_deadhead_analysis origin_deadhead_miles destination_deadhead_miles
        trip_miles ;;
    let rateview_response :=
      call_rateview_api env origin destination_place rateview_equipment
        access_token in
    let '(market_rate_per_mile, market_data, rate_data) :=
      read_rateview rateview_response in
    comparison <- get_rate_comparison broker_rate_per_mile market_rate_per_mile ;;
    load_score <-
      calculate_load_score (score_rate_argument comparison)
        (inject_Z (risk_score weather_analysis))
        (score_deadhead_argument deadhead_analysis)
        trip_miles
        (score_pay_argument driver_pay)
        weather_delay_hours ;;
    ret (Some {| pm_matchId := match_id;
                 pm_origin := (get_string (city origin), get_string (stateProv origin));
                 pm_destination :=
                   (get_string (city destination_place),
                    get_string (stateProv destination_place));
                 pm_equipment_code := equipment_code;
                 pm_rateviewType := rateview_equipment;
                 pm_tripMiles := trip_miles;
                 pm_rateComparison := comparison;
                 pm_driver_pay := driver_pay;
                 pm_weatherInfo := weather_analysis;
                 pm_deadheadAnalysis := deadhead_analysis;
                 pm_loadQuality := load_score;
                 pm_marketData := market_data_of market_data rate_data |}).













(** The origin and destination places of a match. *)
Definition origin_of (m : load) : place :=
  match asset_origin m with Some p => p | None => empty_place end.

Definition destination_of (m : load) : place :=
  match asset_destination_place m with Some p => p | None => empty_place end.

(** A match has both places when neither dictionary is missing or empty. *)
Definition has_places (m : load) : bool :=
  place_truthy (origin_of m) && place_truthy (destination_of m).

(** A world in which the weather provider refuses every request and the
    rate provider reports an error, and a match between two cities. *)
Definition failing_world : world :=
  {| weather_http := fun _ _ => Response 500 (inl "");
     call_rateview_api := fun _ _ _ _ =>
       {| rateview_error := Some (JStr "API Error: 401");
          rateview_rateResponses := None |} |}.

Definition chicago : place :=
  {| city := Some "Chicago"; stateProv := Some "IL";
     place_latitude := Some 41.9; place_longitude := Some (-87.6) |}.

Definition quito : place :=
  {| city := Some "Quito"; stateProv := Some "EC";
     place_latitude := Some 0; place_longitude := Some (-78.5) |}.


Definition load_without_trip : load :=
  {| matchId := Some "m3"; asset_origin := Some chicago;
     asset_destination_place := Some quito;
     equipmentType := Some "R"; tripLength_miles := None;
     estimatedRatePerMile := Some 3; private_rateUsd := None;
     loadBoard_rateUsd := None; originDeadheadMiles := Some 25;
     destinationDeadheadMiles := Some 50 |}.



(** ** Lemmas on comparisons and rounding *)

Lemma Qgtb_true (a b : Q) : Qgtb a b = true <-> b < a.
Proof.
  unfold Qgtb. rewrite negb_true_iff.
  destruct (Qle_bool a b) eqn:E.
  - apply Qle_bool_iff in E. split; [discriminate | intro H; exfalso; lra].
  - split; [intros _ | reflexivity].
    apply Qnot_le_lt. intro H. apply Qle_bool_iff in H. congruence.
Qed.

Lemma Qgtb_false (a b : Q) : Qgtb a b = false <-> a <= b.
Proof.
  unfold Qgtb. rewrite negb_false_iff. apply Qle_bool_iff.
Qed.

Lemma Qltb_true (a b : Q) : Qltb a b = true <-> a < b.
Proof. apply Qgtb_true. Qed.

Lemma Qltb_false (a b : Q) : Qltb a b = false <-> b <= a.
Proof. apply Qgtb_false. Qed.


Lemma py_round_cases (x : Q) :
  py_round x = Qfloor x \/ py_round x = (Qfloor x + 1)%Z.
Proof.
  unfold py_round. cbv zeta.
  destruct (Qcompare (x - inject_Z (Qfloor x)) (1 # 2)); auto.
  destruct (Z.even (Qfloor x)); auto.
Qed.

Lemma py_round_lower (x : Q) (a : Z) : inject_Z a <= x -> (a <= py_round x)%Z.
Proof.
  intros Ha.
  pose proof (Qfloor_resp_le _ _ Ha) as H1. rewrite Qfloor_Z in H1.
  destruct (py_round_cases x) as [-> | ->]; lia.
Qed.

(** Rounding to the nearest integer stays between integer bounds. *)
Lemma py_round_bounds (x : Q) (a b : Z) :
  inject_Z a <= x -> x <= inject_Z b -> (a <= py_round x <= b)%Z.
Proof.
  intros Ha Hb.
  pose proof (Qfloor_resp_le _ _ Ha) as H1. rewrite Qfloor_Z in H1.
  pose proof (Qfloor_resp_le _ _ Hb) as H2. rewrite Qfloor_Z in H2.
  split.
  - destruct (py_round_cases x) as [-> | ->]; lia.
  - unfold py_round. cbv zeta.
    destruct (Qcompare (x - inject_Z (Qfloor x)) (1 # 2)) eqn:E.
    + destruct (Z.even (Qfloor x)); [lia |].
      apply Qeq_alt in E.
      destruct (Z.eq_dec (Qfloor x) b) as [Heq | Hne]; [| lia].
      rewrite Heq in E. lra.
    + lia.
    + apply Qgt_alt in E.
      destruct (Z.eq_dec (Qfloor x) b) as [Heq | Hne]; [| lia].
      rewrite Heq in E. lra.
Qed.




(** ** Runs of the monad *)

Lemma run_bind {A B} (m : M A) (f : A -> M B) (n : nat) (a : A) (n' : nat) :
  m n = Ok a n' -> bind m f n = f a n'.
Proof. unfold bind. intros ->. reflexivity. Qed.

Lemma run_truediv (a b : Q) (n : nat) :
  ~ b == 0 -> truediv a b n = Ok (a / b) (S n).
Proof.
  intros Hb. unfold truediv.
  destruct (Qeq_bool b 0) eqn:E; [| reflexivity].
  apply Qeq_bool_iff in E. contradiction.
Qed.

(** ** The load quality score *)






(** The extreme inputs the specification lists. *)
Example calculate_load_score_extremes :
  (exists n, calculate_load_score (VNum 1000) 100 5 500 (VNum 100000) 100 0%nat
             = Ok {| score := 40; category := "Poor";
                     key_factors :=
                       [[Num (py_round1 1000); Lit "% above market rate"];
                        [Lit "High weather risk"];
                        [Lit "Severe delay risk ("; Num 100; Lit " hrs)"]] |} n)
  /\ (exists r n, calculate_load_score (VNum (-1000)) 100 5 500 (VNum 100000) 100 0%nat
                  = Ok r n /\ score r = 0%Z /\ category r = "Very Poor").
Proof.
  split.
  - exists 2%nat. vm_compute. reflexivity.
  - eexists. eexists. vm_compute. repeat split.
Qed.

(** C2: on difference 20, risk 0, deadhead ratio 0, 500 trip miles, pay 600
    and no delay, the quality score before rounding is 50 + 20 * (25/30) + 15
    = 245/3 (81.67), the returned score is 82 and the category is
    "Excellent". *)
Theorem calculate_load_score_scenario :
  exists st r n n',
    score_and_factors (VNum 20) 0 0 500 (VNum 600) 0 0%nat = Ok st n
    /\ fst st == 50 + 20 * (25 / 30) + 15
    /\ fst st == 245 # 3
    /\ calculate_load_score (VNum 20) 0 0 500 (VNum 600) 0 0%nat = Ok r n'
    /\ score r = 82%Z
    /\ category r = "Excellent".
Proof.
  eexists. eexists. eexists. eexists.
  split; [vm_compute; reflexivity |].
  split; [vm_compute; reflexivity |].
  split; [vm_compute; reflexivity |].
  split; [vm_compute; reflexivity |].
  split; vm_compute; reflexivity.
Qed.

(** C10: two calls of [calculate_load_score] that differ only in
    [trip_miles] return the same result: the same score, category and key
    factors (and perform the same divisions). *)
Theorem calculate_load_score_ignores_trip_miles
    (rate_comparison : pyval) (weather_risk_score deadhead_ratio : Q)
    (driver_pay : pyval) (weather_delay_hours : Q)
    (trip_miles trip_miles' : Q) (n : nat) :
  calculate_load_score rate_comparison weather_risk_score deadhead_ratio
    trip_miles driver_pay weather_delay_hours n
  = calculate_load_score rate_comparison weather_risk_score deadhead_ratio
      trip_miles' driver_pay weather_delay_hours n.
Proof.
  unfold calculate_load_score, score_and_factors. reflexivity.
Qed.





(** ** Hazard detection *)

(** C5, as stated, fails: one sample with weather code 75, precipitation
    above 4 mm and wind above 30 km/h yields three events (Snow, Heavy Rain
    and High Winds), and so does the detector on a forecast holding this one
    sample. *)
Lemma one_sample_three_hazards :
  map h_type (hour_hazards snow_rain_wind) = ["Snow"; "Heavy Rain"; "High Winds"]
  /\ ~ (List.length (hour_hazards snow_rain_wind) <= 2)%nat
  /\ exists loc hs severe,
       check_for_hazards weather_snow 0%nat
       = Ok (HazardReport loc hs 3 severe) 0.
Proof.
  split; [reflexivity |].
  split; [cbn; lia |].
  eexists. eexists. eexists. reflexivity.
Qed.

(** C5, amended: every single hourly sample yields at most three events
    (at most one from the weather code, then at most one Heavy Rain and at
    most one High Winds event), so a forecast of [k] samples yields at most
    [3 * k]. *)
Theorem hour_hazards_at_most_three :
  (forall h : hour, (List.length (hour_hazards h) <= 3)%nat)
  /\ (forall hourly : list hour,
        (List.length (flat_map hour_hazards hourly) <= 3 * List.length hourly)%nat).
Proof.
  assert (forall h : hour, (List.length (hour_hazards h) <= 3)%nat) as Hone.
  { intros h. unfold hour_hazards. cbv zeta.
    rewrite !length_app.
    case_conditions; cbn [List.length]; lia. }
  split; [exact Hone |].
  induction hourly as [| h r IH]; cbn [flat_map List.length].
  - lia.
  - rewrite length_app. specialize (Hone h). lia.
Qed.

(** ** Deadhead analysis *)

Lemma ratio2_ok (a b : Q) (n : nat) :
  exists v n', ratio2 a b n = Ok v n'.
Proof.
  unfold ratio2. destruct (Qgtb b 0) eqn:E; [| unfold ret; eauto].
  apply Qgtb_true in E.
  erewrite run_bind by (apply run_truediv; lra).
  unfold ret. eauto.
Qed.

Lemma percentage1_run (a b : Q) (n : nat) :
  0 < b -> percentage1 a b n = Ok (py_round1 (a / b * 100)) (S n).
Proof.
  intros Hb. unfold percentage1.
  apply Qgtb_true in Hb as E. rewrite E.
  erewrite run_bind by (apply run_truediv; lra).
  reflexivity.
Qed.

Lemma percentage1_ok (a b : Q) (n : nat) :
  exists v n', percentage1 a b n = Ok v n'.
Proof.
  destruct (Qgtb b 0) eqn:E.
  - apply Qgtb_true in E. rewrite percentage1_run by assumption. eauto.
  - unfold percentage1. rewrite E. unfold ret. eauto.
Qed.

(** The run of the analysis on a positive trip length, up to the two
    percentages (left as they are computed). *)
Lemma calculate_deadhead_analysis_run (o d t : Q) (n : nat) :
  0 < t ->
  exists f n' k1 k2 p u,
    calculate_deadhead_analysis o d t n = Ok (DeadheadSuccess f) n'
    /\ percentage1 t (t + (o + d)) k1 = Ok p k2
    /\ percentage1 (o + d) (t + (o + d)) k2 = Ok u n'
    /\ paid_miles_percentage f = p
    /\ unpaid_miles_percentage f = u.
Proof.
  intros Ht. unfold calculate_deadhead_analysis.
  assert (Qle_bool t 0 = false) as E.
  { destruct (Qle_bool t 0) eqn:E; [| reflexivity].
    apply Qle_bool_iff in E. lra. }
  rewrite E.
  destruct (ratio2_ok o t n) as (r1 & n1 & H1). erewrite run_bind by exact H1.
  destruct (ratio2_ok d t n1) as (r2 & n2 & H2). erewrite run_bind by exact H2.
  destruct (ratio2_ok (o + d) t n2) as (r3 & n3 & H3). erewrite run_bind by exact H3.
  destruct (percentage1_ok t (t + (o + d)) n3) as (p & n4 & H4).
  erewrite run_bind by exact H4.
  destruct (percentage1_ok (o + d) (t + (o + d)) n4) as (u & n5 & H5).
  erewrite run_bind by exact H5.
  destruct (deadhead_severity r3) as [sev imp].
  eexists. exists n5, n3, n4, p, u.
  split; [reflexivity |]. cbn. auto.
Qed.



(** The case the specification singles out: a trip length of zero. *)
Example calculate_deadhead_analysis_zero_trip :
  calculate_deadhead_analysis 10 20 0 0%nat
  = Ok (DeadheadInvalid "Trip miles must be greater than zero") 0.
Proof. reflexivity. Qed.




(** ** Rate comparison *)






(** A zero broker rate or a zero market rate gives the sentinel with no
    division performed. *)
Example get_rate_comparison_zero_rates :
  get_rate_comparison (Some 0) (Some 2) 0%nat
  = Ok {| broker_rate_per_mile := VStr "Not Available";
          market_rate_per_mile := VNum 2;
          difference_percentage := VStr "N/A";
          comparison := [Lit "Rate comparison not possible"] |} 0
  /\ get_rate_comparison (Some 3) (Some 0) 0%nat
     = Ok {| broker_rate_per_mile := VNum 3;
             market_rate_per_mile := VStr "Not Available";
             difference_percentage := VStr "N/A";
             comparison := [Lit "Rate comparison not possible"] |} 0.
Proof. split; reflexivity. Qed.

(** ** Delay estimation *)

(** Every speed factor of the table is positive, so the reduced speed is
    never zero. *)
Lemma weather_impacts_speed (t s : string) by_severity (speed route : Q) :
  lookup t weather_impacts = Some by_severity ->
  lookup s by_severity = Some (speed, route) ->
  0 < speed.
Proof.
  unfold weather_impacts. cbn [lookup]. intros Ht.
  case_hypotheses; try discriminate Ht;
    injection Ht as <-; cbn [lookup]; intros Hs;
    case_hypotheses; try discriminate Hs;
    injection Hs as <- _; reflexivity.
Qed.

(** One hazard either leaves the accumulator as it is or adds a factor. *)
Lemma delay_step_ok (trip_miles : Q) (acc : Q * list delay_factor) (hz : hazard)
    (n : nat) :
  exists acc' n',
    delay_step trip_miles acc hz n = Ok acc' n'
    /\ (acc' = acc \/ snd acc' <> []).
Proof.
  unfold delay_step. cbv zeta.
  destruct (lookup (h_type hz) weather_impacts) as [by_severity |] eqn:Et;
    [| unfold ret; eauto].
  destruct (lookup (h_severity hz) by_severity) as [[speed route] |] eqn:Es;
    [| unfold ret; eauto].
  pose proof (weather_impacts_speed _ _ _ _ _ Et Es) as Hspeed.
  erewrite run_bind by (apply run_truediv; discriminate).
  erewrite run_bind
    by (apply run_truediv; unfold normal_speed_mph; intros H; nra).
  destruct (Qgtb _ _); unfold ret; eexists; eexists; split;
    try reflexivity; [right | left; reflexivity].
  cbn [snd]. intros H. apply app_eq_nil in H. destruct H as [_ H]. discriminate H.
Qed.

Lemma delay_loop_ok (trip_miles : Q) (hazards : list hazard) :
  forall (acc : Q * list delay_factor) (n : nat),
  exists acc' n',
    foldM (delay_step trip_miles) hazards acc n = Ok acc' n'
    /\ (snd acc' = [] -> acc' = acc).
Proof.
  induction hazards as [| hz r IH]; intros acc n; cbn [foldM].
  - unfold ret. eauto.
  - destruct (delay_step_ok trip_miles acc hz n) as (acc1 & n1 & H1 & Hkeep).
    erewrite run_bind by exact H1.
    destruct (IH acc1 n1) as (acc' & n' & H' & Hnil).
    exists acc', n'. split; [exact H' |].
    intros Hempty. specialize (Hnil Hempty). subst acc'.
    destruct Hkeep as [-> | Hne]; [reflexivity | contradiction].
Qed.


(** The run of the estimator past its guard. *)
Lemma estimate_weather_delay_run (hazards : list hazard) (trip_miles : Q) (n : nat) :
  hazards <> [] -> 0 < trip_miles ->
  exists total factors pct n',
    estimate_weather_delay hazards trip_miles n
    = Ok {| estimated_delay_hours := py_round1 total;
            delay_percentage := Some pct;
            delay_factors := factors;
            impact_level := impact_of_total total |} n'
    /\ (factors = [] -> total = 0).
Proof.
  intros Hne Hpos. unfold estimate_weather_delay.
  assert (is_nil hazards || Qle_bool trip_miles 0 = false) as E.
  { apply orb_false_iff. split.
    - destruct hazards; [contradiction | reflexivity].
    - destruct (Qle_bool trip_miles 0) eqn:E; [| reflexivity].
      apply Qle_bool_iff in E. lra. }
  rewrite E.
  erewrite run_bind by (apply run_truediv; discriminate).
  destruct (delay_loop_ok trip_miles hazards (0, []) (S n))
    as ([total factors] & n1 & Hloop & Hnil).
  erewrite run_bind by exact Hloop.
  cbn [fst snd].
  assert (0 < trip_miles / normal_speed_mph) as Htime.
  { apply Qlt_shift_div_l; [reflexivity | lra]. }
  erewrite run_bind by (apply run_truediv; intros H; rewrite H in Htime;
                        discriminate Htime).
  eexists. eexists. eexists. eexists. split; [reflexivity |].
  intros Hf. cbn [snd] in Hnil. specialize (Hnil Hf).
  injection Hnil as -> _. reflexivity.
Qed.

(** The estimator never raises. *)
Lemma estimate_weather_delay_ok (hazards : list hazard) (trip_miles : Q) (n : nat) :
  exists r n', estimate_weather_delay hazards trip_miles n = Ok r n'.
Proof.
  destruct hazards as [| hz r].
  - unfold estimate_weather_delay. cbn. unfold ret. eauto.
  - destruct (Qlt_le_dec 0 trip_miles) as [Hpos | Hnon].
    + destruct (estimate_weather_delay_run (hz :: r) trip_miles n)
        as (total & factors & pct & n' & H & _); [discriminate | exact Hpos |].
      eauto.
    + unfold estimate_weather_delay.
      apply Qle_bool_iff in Hnon as E. rewrite E. cbn. unfold ret. eauto.
Qed.




(** ** Weather risk summary *)

Lemma truthy_false_iff (w : option weather_data) : truthy w = false <-> absent w.
Proof.
  unfold absent. destruct w as [[e a l h d] |]; cbn.
  - destruct e, a, l, h, d; cbn; split; try discriminate; auto;
      intros [H | H]; discriminate H.
  - split; auto.
Qed.

Lemma successful_false_iff (w : weather_data) : successful w = false <-> unusable w.
Proof.
  unfold successful, unusable.
  destruct (wd_error w) as [e |]; cbn.
  - split; [intros _; left; discriminate | reflexivity].
  - destruct (wd_api_status w) as [s |].
    + destruct (String.eqb_spec s "success") as [-> | Hne].
      * split; [discriminate | intros [H | H]; contradiction].
      * split; [intros _; right; congruence | reflexivity].
    + split; [intros _; right; discriminate | reflexivity].
Qed.

(** An unusable side is never handed to [check_for_hazards]. *)
Lemma side_report_unusable (w : weather_data) (n : nat) :
  unusable w -> side_report w n = Ok None n.
Proof.
  intros H. apply successful_false_iff in H.
  unfold side_report. rewrite H. reflexivity.
Qed.

Lemma side_report_usable (w : weather_data) loc hourly (n : nat) :
  usable w loc hourly ->
  exists count severe,
    side_report w n
    = Ok (Some (HazardReport loc (flat_map hour_hazards hourly) count severe)) n.
Proof.
  intros (He & Ha & Hl & Hh).
  unfold side_report, successful, check_for_hazards.
  rewrite He, Ha, Hh, Hl. cbn. unfold bind, ret. cbn. eauto.
Qed.



(** An error-tagged origin next to a destination with one stormy sample:
    only the destination's three hazards are reported, for 15 + 5 + 5 risk
    points. *)
Example weather_analysis_one_sided :
  exists r n,
    get_simple_weather_analysis (Some weather_error) (Some weather_snow) 500 0%nat
    = Ok r n
    /\ hazards r = ["Destination: Snow (high risk)";
                    "Destination: Heavy Rain (medium risk)";
                    "Destination: High Winds (medium risk)"]
    /\ risk_score r = 25%Z
    /\ risk_level r = "Medium".
Proof.
  eexists. eexists. split; [vm_compute; reflexivity |].
  repeat split.
Qed.

(** * Further properties of the pipeline *)

(** ** Hazard detection: which samples are clear, and what is emitted *)

Lemma Zmem_In (x : Z) (xs : list Z) : Zmem x xs = true <-> In x xs.
Proof.
  unfold Zmem. rewrite existsb_exists. split.
  - intros (y & Hy & E). apply Z.eqb_eq in E. subst y. exact Hy.
  - intros H. exists x. split; [exact H | apply Z.eqb_refl].
Qed.

Lemma Zmem_not_In (x : Z) (xs : list Z) : Zmem x xs = false <-> ~ In x xs.
Proof.
  rewrite <- Zmem_In. destruct (Zmem x xs); split; congruence.
Qed.

Lemma code_hazards_nil (code : Z) (A : Type) (a b c d e : A) :
  ~ In code [71; 73; 75; 77; 85; 86; 95; 96; 99; 66; 67; 45; 48]%Z ->
  (if Zmem code [71; 73; 75; 77; 85; 86]%Z then a
   else if Zmem code [95; 96; 99]%Z then b
   else if Zmem code [66; 67]%Z then c
   else if Zmem code [45; 48]%Z then d else e) = e.
Proof.
  intros H.
  destruct (Zmem code [71; 73; 75; 77; 85; 86]%Z) eqn:E1.
  { apply Zmem_In in E1. exfalso. apply H. cbn [In] in *. tauto. }
  destruct (Zmem code [95; 96; 99]%Z) eqn:E2.
  { apply Zmem_In in E2. exfalso. apply H. cbn [In] in *. tauto. }
  destruct (Zmem code [66; 67]%Z) eqn:E3.
  { apply Zmem_In in E3. exfalso. apply H. cbn [In] in *. tauto. }
  destruct (Zmem code [45; 48]%Z) eqn:E4.
  { apply Zmem_In in E4. exfalso. apply H. cbn [In] in *. tauto. }
  reflexivity.
Qed.

(** X1: a sample yields no hazard exactly when its weather code is none of
    the thirteen hazard codes, its precipitation is at most 4 mm and its
    wind is at most 30 km/h. *)
Theorem hour_hazards_clear (h : hour) :
  hour_hazards h = []
  <-> (~ In (weather_code h) [71; 73; 75; 77; 85; 86; 95; 96; 99; 66; 67; 45; 48]%Z
       /\ precipitation_mm h <= 4
       /\ wind_speed_kmh h <= 30).
Proof.
  unfold hour_hazards. cbv zeta. split.
  - intros H. apply app_eq_nil in H. destruct H as [Hcode H].
    apply app_eq_nil in H. destruct H as [Hrain Hwind].
    split; [| split].
    + intros Hin.
      destruct (Zmem (weather_code h) [71; 73; 75; 77; 85; 86]%Z) eqn:E1;
        [discriminate Hcode |].
      destruct (Zmem (weather_code h) [95; 96; 99]%Z) eqn:E2;
        [discriminate Hcode |].
      destruct (Zmem (weather_code h) [66; 67]%Z) eqn:E3;
        [discriminate Hcode |].
      destruct (Zmem (weather_code h) [45; 48]%Z) eqn:E4;
        [discriminate Hcode |].
      apply Zmem_not_In in E1, E2, E3, E4. cbn [In] in *. tauto.
    + destruct (Qgtb (precipitation_mm h) 4) eqn:E; [discriminate Hrain |].
      apply Qgtb_false in E. exact E.
    + destruct (Qgtb (wind_speed_kmh h) 30) eqn:E; [discriminate Hwind |].
      apply Qgtb_false in E. exact E.
  - intros (Hcode & Hrain & Hwind).
    rewrite (code_hazards_nil _ _ _ _ _ _ _ Hcode).
    apply Qgtb_false in Hrain, Hwind. rewrite Hrain, Hwind. reflexivity.
Qed.

Lemma hour_hazards_in_table (h : hour) :
  Forall in_impact_table (hour_hazards h).
Proof.
  unfold hour_hazards. cbv zeta.
  apply Forall_app; split; [| apply Forall_app; split].
  - destruct (Zmem (weather_code h) [71; 73; 75; 77; 85; 86]%Z).
    { constructor; [| constructor].
      destruct (Zmem (weather_code h) [75; 86]%Z); in_table. }
    destruct (Zmem (weather_code h) [95; 96; 99]%Z).
    { constructor; [in_table | constructor]. }
    destruct (Zmem (weather_code h) [66; 67]%Z).
    { constructor; [in_table | constructor]. }
    destruct (Zmem (weather_code h) [45; 48]%Z); constructor;
      [in_table | constructor].
  - destruct (Qgtb (precipitation_mm h) 4); constructor;
      [in_table | constructor].
  - destruct (Qgtb (wind_speed_kmh h) 30); constructor; [| constructor].
    destruct (Qltb (wind_speed_kmh h) 50); in_table.
Qed.

Lemma hour_hazards_severity (h : hour) :
  Forall (fun hz => h_severity hz = "high" \/ h_severity hz = "medium")
    (hour_hazards h).
Proof.
  unfold hour_hazards. cbv zeta.
  apply Forall_app; split; [| apply Forall_app; split].
  - destruct (Zmem (weather_code h) [71; 73; 75; 77; 85; 86]%Z).
    { constructor; [| constructor].
      destruct (Zmem (weather_code h) [75; 86]%Z); [left | right]; reflexivity. }
    destruct (Zmem (weather_code h) [95; 96; 99]%Z).
    { constructor; [left; reflexivity | constructor]. }
    destruct (Zmem (weather_code h) [66; 67]%Z).
    { constructor; [left; reflexivity | constructor]. }
    destruct (Zmem (weather_code h) [45; 48]%Z); constructor;
      [right; reflexivity | constructor].
  - destruct (Qgtb (precipitation_mm h) 4); constructor;
      [right; reflexivity | constructor].
  - destruct (Qgtb (wind_speed_kmh h) 30); constructor; [| constructor].
    destruct (Qltb (wind_speed_kmh h) 50); [right | left]; reflexivity.
Qed.

(** X2: whatever [check_for_hazards] reports can be priced by the delay
    estimator: every hazard it emits has a (type, severity) pair of the
    impact table, its severity is "high" or "medium", the count is the
    length of the list and the severe flag is set exactly when some hazard
    is "high". *)
Theorem check_for_hazards_report
    (w : weather_data) (n n' : nat) loc hs (count : nat) (severe : bool) :
  check_for_hazards w n = Ok (HazardReport loc hs count severe) n' ->
  Forall in_impact_table hs
  /\ Forall (fun hz => h_severity hz = "high" \/ h_severity hz = "medium") hs
  /\ count = List.length hs
  /\ (severe = true <-> exists hz, In hz hs /\ h_severity hz = "high")
  /\ n' = n.
Proof.
  unfold check_for_hazards.
  destruct (wd_error w); [discriminate |].
  destruct (wd_hourly_forecast w) as [hourly |]; [| discriminate].
  destruct (wd_location w) as [l |]; [| discriminate].
  cbn. unfold bind, ret. cbn. intros H. injection H as <- <- <- <- <-.
  split.
  { induction hourly as [| h r IH]; cbn [flat_map]; [constructor |].
    apply Forall_app. split; [apply hour_hazards_in_table | exact IH]. }
  split.
  { induction hourly as [| h r IH]; cbn [flat_map]; [constructor |].
    apply Forall_app. split; [apply hour_hazards_severity | exact IH]. }
  split; [reflexivity |].
  split; [| reflexivity].
  rewrite existsb_exists. split.
  - intros (hz & Hin & E). apply String.eqb_eq in E. eauto.
  - intros (hz & Hin & E). exists hz. split; [exact Hin |].
    apply String.eqb_eq. exact E.
Qed.

Lemma check_for_hazards_report_witness :
  check_for_hazards weather_snow 0%nat
  = Ok (HazardReport {| latitude := 40; longitude := -75; timezone := "UTC";
                        elevation := None |}
          (hour_hazards snow_rain_wind ++ []) 3 true) 0
  /\ Forall in_impact_table (hour_hazards snow_rain_wind ++ [])
  /\ 3%nat = List.length (hour_hazards snow_rain_wind ++ []).
Proof.
  split; [reflexivity |].
  destruct (check_for_hazards_report weather_snow 0 0
              {| latitude := 40; longitude := -75; timezone := "UTC";
                 elevation := None |}
              (hour_hazards snow_rain_wind ++ []) 3 true eq_refl)
    as (Htable & _ & Hcount & _).
  split; [exact Htable | exact Hcount].
Defined.

(** ** Delay estimation: what is accumulated *)

Lemma py_round_comp (x y : Q) : x == y -> py_round x = py_round y.
Proof.
  intros E. unfold py_round. cbv zeta.
  rewrite (Qfloor_comp _ _ E).
  assert (x - inject_Z (Qfloor y) == y - inject_Z (Qfloor y)) as E' by (rewrite E; reflexivity).
  rewrite (Qcompare_comp _ _ E' (1 # 2) (1 # 2) (Qeq_refl _)). reflexivity.
Qed.
















(** The bound is sharp to the mile: at 15 miles freezing rain is counted. *)
Example freezing_rain_counted_at_15_miles :
  exists r n',
    estimate_weather_delay
      [ {| h_type := "Freezing Rain"; h_time := "2024-01-01T00:00";
           h_severity := "high"; h_precipitation := None;
           h_wind_speed := None |} ] 15 0%nat = Ok r n'
    /\ List.length (delay_factors r) = 1%nat
    /\ estimated_delay_hours r == 0.3.
Proof.
  eexists. eexists. split; [vm_compute; reflexivity |]. split; reflexivity.
Qed.

(** ** Weather risk summary: the risk score *)

Lemma count_severity_nonneg (sev : string) (hs : list hazard) :
  (0 <= count_severity sev hs)%Z.
Proof. unfold count_severity. lia. Qed.

Lemma count_severity_total (hs : list hazard) :
  Forall (fun hz => h_severity hz = "high" \/ h_severity hz = "medium") hs ->
  (count_severity "high" hs + count_severity "medium" hs
   = Z.of_nat (List.length hs))%Z.
Proof.
  unfold count_severity. induction 1 as [| hz r Hhz _ IH]; [reflexivity |].
  cbn [filter List.length].
  destruct Hhz as [-> | ->]; cbn [String.eqb Ascii.eqb Bool.eqb andb];
    cbn [List.length]; lia.
Qed.

Lemma flat_map_hazards_severity (hourly : list hour) :
  Forall (fun hz => h_severity hz = "high" \/ h_severity hz = "medium")
    (flat_map hour_hazards hourly).
Proof.
  induction hourly as [| h r IH]; cbn [flat_map]; [constructor |].
  apply Forall_app. split; [apply hour_hazards_severity | exact IH].
Qed.

(** What one side's report can be. *)
Lemma side_report_cases (w : weather_data) (n : nat) :
  side_report w n = Ok None n
  \/ (exists loc hourly count severe,
        side_report w n
        = Ok (Some (HazardReport loc (flat_map hour_hazards hourly) count severe)) n)
  \/ (exists e, side_report w n = Raise e).
Proof.
  unfold side_report. destruct (successful w) eqn:S; [| left; reflexivity].
  right. unfold successful in S. apply andb_true_iff in S. destruct S as [S _].
  unfold check_for_hazards.
  destruct (wd_error w); [discriminate S |].
  destruct (wd_hourly_forecast w) as [hourly |]; [| right; cbn; eauto].
  destruct (wd_location w) as [loc |]; [| right; cbn; eauto].
  left. cbn. unfold bind, ret. cbn. eauto.
Qed.

Lemma risk_points_report (hp mp : Z) (r : option hazard_report) :
  (0 < hp)%Z -> (0 < mp)%Z ->
  Forall (fun hz => h_severity hz = "high" \/ h_severity hz = "medium")
    (report_hazards r) ->
  (0 <= risk_points hp mp r)%Z
  /\ (risk_points hp mp r = 0%Z <-> report_hazards r = []).
Proof.
  intros Hh Hm Hall.
  destruct r as [[e | loc hs c sv] |]; cbn in *;
    try (split; [lia | split; reflexivity]).
  pose proof (count_severity_nonneg "high" hs) as Nh.
  pose proof (count_severity_nonneg "medium" hs) as Nm.
  pose proof (count_severity_total hs Hall) as Htot.
  split; [nia |].
  split.
  - intros Hz. destruct hs; [reflexivity |]. cbn [List.length] in Htot. nia.
  - intros ->. reflexivity.
Qed.

Lemma side_report_ok (w : weather_data) (n n' : nat) (r : option hazard_report) :
  side_report w n = Ok r n' ->
  n' = n
  /\ Forall (fun hz => h_severity hz = "high" \/ h_severity hz = "medium")
       (report_hazards r).
Proof.
  intros H.
  destruct (side_report_cases w n) as [E | [(loc & hourly & c & sv & E) | (e & E)]];
    rewrite E in H; [| | discriminate H]; injection H as <- <-;
    (split; [reflexivity |]); cbn; [constructor | apply flat_map_hazards_severity].
Qed.

Lemma risk_score_props (a b : option hazard_report) :
  Forall (fun hz => h_severity hz = "high" \/ h_severity hz = "medium")
    (report_hazards a) ->
  Forall (fun hz => h_severity hz = "high" \/ h_severity hz = "medium")
    (report_hazards b) ->
  (0 <= Z.min (risk_points 20 10 a + risk_points 15 5 b) 100 <= 100)%Z
  /\ (Z.min (risk_points 20 10 a + risk_points 15 5 b) 100 = 0%Z
      <-> map (hazard_label "Origin") (report_hazards a)
          ++ map (hazard_label "Destination") (report_hazards b) = []).
Proof.
  intros Fa Fb.
  destruct (risk_points_report 20 10 a eq_refl eq_refl Fa) as [Pa Za].
  destruct (risk_points_report 15 5 b eq_refl eq_refl Fb) as [Pb Zb].
  split; [lia |]. split.
  - intros H0.
    assert (risk_points 20 10 a = 0%Z) as Ea by lia.
    assert (risk_points 15 5 b = 0%Z) as Eb by lia.
    apply Za in Ea. apply Zb in Eb. rewrite Ea, Eb. reflexivity.
  - intros Hnil. apply app_eq_nil in Hnil. destruct Hnil as [Ea Eb].
    apply map_eq_nil in Ea. apply map_eq_nil in Eb.
    apply Za in Ea. apply Zb in Eb. lia.
Qed.

Lemma risk_level_of_known (score : Z) : risk_level_of score <> "Unknown".
Proof. unfold risk_level_of. case_conditions; discriminate. Qed.

Lemma weather_risk_score_range_core
    (origin destination : option weather_data) (trip_miles : Q) (n n' : nat)
    (r : analysis) :
  get_simple_weather_analysis origin destination trip_miles n = Ok r n' ->
  (0 <= risk_score r <= 100)%Z
  /\ (risk_score r = 0%Z <-> hazards r = [])
  /\ (risk_level r = "Unknown" <-> absent origin \/ absent destination).
Proof.
  unfold get_simple_weather_analysis.
  destruct (negb (truthy origin) || negb (truthy destination)) eqn:G.
  - intros H. injection H as <- _. cbn.
    split; [lia |]. split; [split; reflexivity |].
    split; [intros _ | reflexivity].
    apply orb_true_iff in G. rewrite !negb_true_iff, !truthy_false_iff in G.
    exact G.
  - apply orb_false_iff in G. rewrite !negb_false_iff in G. destruct G as [To Td].
    assert (~ (absent origin \/ absent destination)) as Hpresent.
    { rewrite <- !truthy_false_iff. intros [H | H]; congruence. }
    destruct origin as [o |]; [| discriminate To].
    destruct destination as [d |]; [| discriminate Td].
    destruct (side_report o n) as [ro n1 | e] eqn:Ho;
      [| unfold bind; rewrite Ho; discriminate].
    erewrite run_bind by exact Ho.
    destruct (side_report_ok _ _ _ _ Ho) as [-> Fo].
    destruct (side_report d n) as [rd n2 | e] eqn:Hd;
      [| unfold bind; rewrite Hd; discriminate].
    erewrite run_bind by exact Hd.
    destruct (side_report_ok _ _ _ _ Hd) as [-> Fd].
    destruct (estimate_weather_delay_ok (report_hazards ro ++ report_hazards rd)
                trip_miles n) as (di & k & Hdi).
    erewrite run_bind by exact Hdi.
    unfold ret. intros H. injection H as <- _.
    cbn [risk_score hazards risk_level].
    destruct (risk_score_props ro rd Fo Fd) as [Hrange Hzero].
    split; [exact Hrange |]. split; [exact Hzero |].
    split; [intros H; exfalso; exact (risk_level_of_known _ H) |].
    intros; contradiction.
Qed.

(** X6: whenever the weather analysis returns, its risk score lies between 0
    and 100; the score is zero exactly when no hazard is listed; and the
    level is "Unknown" exactly when a side is absent. *)
Theorem weather_risk_score_range
    (origin destination : option weather_data) (trip_miles : Q) (n n' : nat)
    (r : analysis) :
  get_simple_weather_analysis origin destination trip_miles n = Ok r n' ->
  (0 <= risk_score r <= 100)%Z
  /\ (risk_score r = 0%Z <-> hazards r = [])
  /\ (risk_level r = "Unknown" <-> absent origin \/ absent destination).
Proof. exact (weather_risk_score_range_core origin destination trip_miles n n' r). Qed.

Lemma weather_risk_score_range_witness :
  exists r n',
    get_simple_weather_analysis (Some weather_error) (Some weather_snow) 500 0%nat
    = Ok r n'
    /\ (0 <= risk_score r <= 100)%Z
    /\ (risk_score r = 0%Z <-> hazards r = []).
Proof.
  destruct (estimate_weather_delay_ok (hour_hazards snow_rain_wind ++ []) 500 0%nat)
    as (di & k & Hdi).
  eexists. exists k.
  assert (get_simple_weather_analysis (Some weather_error) (Some weather_snow) 500
            0%nat
          = Ok {| summary :=
                    weather_summary
                      (map (hazard_label "Destination")
                         (hour_hazards snow_rain_wind ++ []))
                      di "Unknown" "Unknown";
                  risk_level := "Medium"; risk_score := 25;
                  hazards :=
                    map (hazard_label "Destination")
                      (hour_hazards snow_rain_wind ++ []);
                  estimated_delay := di |} k) as E.
  { unfold get_simple_weather_analysis. cbn [truthy negb orb weather_error
      weather_snow wd_error wd_api_status wd_location wd_hourly_forecast
      wd_daily_forecast is_some].
    change (side_report weather_error) with (@ret (option hazard_report) None).
    unfold bind at 1. unfold ret at 1.
    unfold bind at 1.
    change (side_report weather_snow 0%nat)
      with (Ok (Some (HazardReport
                        {| latitude := 40; longitude := -75; timezone := "UTC";
                           elevation := None |}
                        (hour_hazards snow_rain_wind ++ []) 3 true)) 0%nat).
    cbn [report_hazards app].
    unfold bind. rewrite Hdi. reflexivity. }
  split; [exact E |].
  destruct (weather_risk_score_range _ _ _ _ _ _ E) as (Hr & Hz & _).
  split; [exact Hr | exact Hz].
Defined.

(** ** The load quality score: closed form, bounds and monotonicity *)


Lemma factor_rate_quality (rc : pyval) (q : Q) (fs : list fstring) (n : nat) :
  exists q' fs' n',
    factor_rate rc (q, fs) n = Ok (q', fs') n' /\ q' == q + rate_points rc.
Proof.
  unfold factor_rate, rate_points. destruct rc as [r | s |].
  - erewrite run_bind by (apply run_truediv; discriminate).
    unfold ret. eexists. eexists. eexists. split; reflexivity.
  - unfold ret. eexists. eexists. eexists. split; [reflexivity | ring].
  - unfold ret. eexists. eexists. eexists. split; [reflexivity | ring].
Qed.

Lemma factor_weather_risk_quality (w q : Q) (fs : list fstring) (n : nat) :
  exists fs' n',
    factor_weather_risk w (q, fs) n = Ok (q + - (w / 6.67), fs') n'.
Proof.
  unfold factor_weather_risk.
  erewrite run_bind by (apply run_truediv; discriminate). unfold ret. eauto.
Qed.

Lemma factor_weather_delay_quality (h q : Q) (fs : list fstring) :
  fst (factor_weather_delay h (q, fs)) == q - delay_penalty h.
Proof.
  unfold factor_weather_delay, delay_penalty.
  destruct (Qgtb h 0); cbn [fst]; ring.
Qed.

Lemma factor_deadhead_quality (d q : Q) (fs : list fstring) :
  fst (factor_deadhead d (q, fs)) == q - deadhead_penalty d.
Proof.
  unfold factor_deadhead, deadhead_penalty.
  destruct (Qgtb d 0); cbn [fst]; ring.
Qed.

Lemma factor_driver_pay_quality (pay : pyval) (q : Q) (fs : list fstring) :
  fst (factor_driver_pay pay (q, fs)) == q + pay_bonus pay.
Proof.
  unfold factor_driver_pay, pay_bonus. destruct pay as [p | s |];
    case_conditions; cbn [fst]; ring.
Qed.

(** The quality score before the final clamp, in closed form. *)
Lemma score_and_factors_quality rc w d tm pay h (n : nat) :
  exists q fs n',
    score_and_factors rc w d tm pay h n = Ok (q, fs) n'
    /\ q == 50 + rate_points rc - w / 6.67 - delay_penalty h
            - deadhead_penalty d + pay_bonus pay.
Proof.
  unfold score_and_factors.
  destruct (factor_rate_quality rc 50 [] n) as (q1 & fs1 & n1 & H1 & Q1).
  erewrite run_bind by exact H1.
  destruct (factor_weather_risk_quality w q1 fs1 n1) as (fs2 & n2 & H2).
  erewrite run_bind by exact H2.
  set (q2 := q1 + - (w / 6.67)).
  destruct (factor_weather_delay h (q2, fs2)) as [q3 fs3] eqn:E3.
  destruct (factor_deadhead d (q3, fs3)) as [q4 fs4] eqn:E4.
  destruct (factor_driver_pay pay (q4, fs4)) as [q5 fs5] eqn:E5.
  exists q5, fs5, n2. split; [reflexivity |].
  pose proof (factor_weather_delay_quality h q2 fs2) as P3. rewrite E3 in P3.
  pose proof (factor_deadhead_quality d q3 fs3) as P4. rewrite E4 in P4.
  pose proof (factor_driver_pay_quality pay q4 fs4) as P5. rewrite E5 in P5.
  cbn [fst] in P3, P4, P5. rewrite P5, P4, P3. unfold q2. rewrite Q1. ring.
Qed.

(** The score of a run, from the closed form. *)
Lemma calculate_load_score_run rc w d tm pay h (n : nat) :
  exists q r n',
    calculate_load_score rc w d tm pay h n = Ok r n'
    /\ q == 50 + rate_points rc - w / 6.67 - delay_penalty h
            - deadhead_penalty d + pay_bonus pay
    /\ score r = py_round (Qmax 0 (Qmin 100 q))
    /\ category r = score_category (score r)
    /\ (List.length (key_factors r) <= 3)%nat.
Proof.
  destruct (score_and_factors_quality rc w d tm pay h n) as (q & fs & n' & H & Hq).
  unfold calculate_load_score. erewrite run_bind by exact H.
  exists q. eexists. exists n'. split; [reflexivity |].
  split; [exact Hq |]. cbn [score category key_factors].
  split; [reflexivity |]. split; [reflexivity |].
  apply firstn_le_length.
Qed.












(** The bound is attained: a rate 30% above market with top pay and no
    penalty scores exactly 90. *)
Example calculate_load_score_best_case :
  exists r n',
    calculate_load_score (VNum 30) 0 0 500 (VNum 600) 0 0%nat = Ok r n'
    /\ score r = 90%Z.
Proof. eexists. eexists. split; [vm_compute; reflexivity | reflexivity]. Qed.













(** ** Rate comparison: the direction of the narrative *)

(** X11: for two positive rates the narrative follows the sign of the
    unrounded difference: "above market rate" exactly when the broker rate
    is higher, "below market rate" exactly when it is lower and "At market
    rate" exactly when the two are equal; the reported difference has the
    same sign or is zero. *)
Theorem get_rate_comparison_direction (broker market : Q) (n : nat) :
  0 < broker -> 0 < market ->
  exists r x n',
    get_rate_comparison (Some broker) (Some market) n = Ok r n'
    /\ difference_percentage r = VNum x
    /\ (market < broker <->
        comparison r = [Num (Qabs x); Lit "% above market rate"])
    /\ (broker < market <->
        comparison r = [Num (Qabs x); Lit "% below market rate"])
    /\ (broker == market <-> comparison r = [Lit "At market rate"])
    /\ (market <= broker -> 0 <= x)
    /\ (broker <= market -> x <= 0).
Proof.
  intros Hb Hm. unfold get_rate_comparison.
  assert (unavailable (Some broker) || unavailable (Some market) = false) as G.
  { cbn. apply orb_false_iff.
    split; (destruct (Qle_bool _ 0) eqn:E; [| reflexivity]);
      apply Qle_bool_iff in E; lra. }
  rewrite G.
  erewrite run_bind by (apply run_truediv; lra).
  eexists. eexists. eexists. split; [reflexivity |].
  cbn [difference_percentage comparison]. split; [reflexivity |].
  set (diff := (broker - market) / market * 100).
  assert ((broker - market) / market * market == broker - market) as Hk
    by (field; lra).
  assert (0 < diff <-> market < broker) as Hpos.
  { unfold diff. split; intros H; nra. }
  assert (diff < 0 <-> broker < market) as Hneg.
  { unfold diff. split; intros H; nra. }
  destruct (Qgtb diff 0) eqn:Ep; [apply Qgtb_true in Ep | apply Qgtb_false in Ep].
  - assert (market < broker) as Hgt by (apply Hpos; exact Ep).
    split; [split; [reflexivity | intros _; exact Hgt] |].
    split; [split; [intros; exfalso; lra | discriminate] |].
    split; [split; [intros; exfalso; lra | discriminate] |].
    split; intros; [| exfalso; lra].
    unfold py_round2. apply Qle_shift_div_l; [reflexivity |].
    assert (0 <= py_round (diff * 100))%Z as Hz
      by (apply py_round_lower; change (inject_Z 0) with 0; lra).
    rewrite Zle_Qle in Hz. change (inject_Z 0) with 0 in Hz. lra.
  - destruct (Qltb diff 0) eqn:En; [apply Qltb_true in En | apply Qltb_false in En].
    + assert (broker < market) as Hlt by (apply Hneg; exact En).
      split; [split; [intros; exfalso; lra | discriminate] |].
      split; [split; [reflexivity | intros _; exact Hlt] |].
      split; [split; [intros; exfalso; lra | discriminate] |].
      split; intros; [exfalso; lra |].
      unfold py_round2. apply Qle_shift_div_r; [reflexivity |].
      assert (py_round (diff * 100) <= 0)%Z as Hz.
      { apply (py_round_bounds (diff * 100) (Qfloor (diff * 100)) 0);
          [apply Qfloor_le | change (inject_Z 0) with 0; lra]. }
      rewrite Zle_Qle in Hz. change (inject_Z 0) with 0 in Hz. lra.
    + assert (broker == market) as Heq.
      { destruct (Qlt_le_dec market broker) as [H | H];
          [apply Hpos in H; exfalso; lra |].
        destruct (Qlt_le_dec broker market) as [H' | H'];
          [apply Hneg in H'; exfalso; lra |].
        lra. }
      split; [split; [intros; exfalso; lra | discriminate] |].
      split; [split; [intros; exfalso; lra | discriminate] |].
      split; [split; [reflexivity | intros _; exact Heq] |].
      assert (diff == 0) as Hz by lra.
      assert (py_round2 diff = py_round2 0) as ->.
      { unfold py_round2. rewrite (py_round_comp (diff * 100) (0 * 100));
          [reflexivity | rewrite Hz; reflexivity]. }
      split; intros; discriminate.
Qed.

Lemma get_rate_comparison_direction_witness :
  0 < 3 /\ 0 < 2 /\ 2 < 3
  /\ exists r x n',
       get_rate_comparison (Some 3) (Some 2) 0%nat = Ok r n'
       /\ difference_percentage r = VNum x
       /\ comparison r = [Num (Qabs x); Lit "% above market rate"].
Proof.
  split; [reflexivity |]. split; [reflexivity |]. split; [reflexivity |].
  destruct (get_rate_comparison_direction 3 2 0%nat)
    as (r & x & n' & H & Hx & Habove & _); [reflexivity | reflexivity |].
  exists r, x, n'. split; [exact H |]. split; [exact Hx |].
  apply Habove. reflexivity.
Defined.

(** ** Broker rate and driver pay *)

Lemma Qgtb_cases (a b : Q) :
  (Qgtb a b = true /\ b < a) \/ (Qgtb a b = false /\ a <= b).
Proof.
  destruct (Qgtb a b) eqn:E; [left | right]; split; try reflexivity.
  - apply Qgtb_true. exact E.
  - apply Qgtb_false. exact E.
Qed.

Lemma Qle_bool_cases (a b : Q) :
  (Qle_bool a b = true /\ a <= b) \/ (Qle_bool a b = false /\ b < a).
Proof.
  destruct (Qle_bool a b) eqn:E; [left | right]; split; try reflexivity.
  - apply Qle_bool_iff. exact E.
  - apply Qnot_le_lt. intros H. apply Qle_bool_iff in H. congruence.
Qed.

Lemma positive_iff (x : option Q) :
  positive x = true <-> exists v, x = Some v /\ 0 < v.
Proof.
  unfold positive, nonzero. destruct x as [v |].
  - destruct (Qgtb_cases v 0) as [[-> H] | [-> H]].
    + rewrite andb_true_r, negb_true_iff.
      destruct (Qeq_bool v 0) eqn:E.
      * apply Qeq_bool_iff in E. exfalso. lra.
      * split; [intros _; eauto | reflexivity].
    + rewrite andb_false_r. split; [discriminate |].
      intros (v' & E & Hv). injection E as <-. exfalso. lra.
  - split; [discriminate | intros (v & E & _); discriminate E].
Qed.

Lemma get_broker_rate_per_mile_positive_core (l : load) (n : nat) :
  exists rate n',
    get_broker_rate_per_mile l n = Ok rate n'
    /\ (n' = n \/ n' = S n)
    /\ (forall r, rate = Some r -> 0 < r).
Proof.
  unfold get_broker_rate_per_mile. cbv zeta.
  destruct (Qgtb_cases (get0 (estimatedRatePerMile l)) 0) as [[-> He] | [-> He]].
  - exists (estimatedRatePerMile l), n. split; [reflexivity |].
    split; [left; reflexivity |].
    intros r E. rewrite E in He. exact He.
  - destruct (Qle_bool_cases (get0 (tripLength_miles l)) 0) as [[-> Ht] | [-> Ht]].
    + exists None, n. split; [reflexivity |]. split; [left; reflexivity |].
      discriminate.
    + destruct (Qgtb_cases (get0 (private_rateUsd l)) 0) as [[-> Hp] | [-> Hp]].
      * erewrite run_bind by (apply run_truediv; lra).
        eexists. eexists. split; [reflexivity |]. split; [right; reflexivity |].
        intros r E. injection E as <-. apply Qlt_shift_div_l; [exact Ht | lra].
      * destruct (Qgtb_cases (get0 (loadBoard_rateUsd l)) 0) as [[-> Hb] | [-> Hb]].
        -- erewrite run_bind by (apply run_truediv; lra).
           eexists. eexists. split; [reflexivity |]. split; [right; reflexivity |].
           intros r E. injection E as <-. apply Qlt_shift_div_l; [exact Ht | lra].
        -- exists None, n. split; [reflexivity |]. split; [left; reflexivity |].
           discriminate.
Qed.




Lemma calculate_driver_pay_cases_core (l : load) (n : nat) :
  exists pay,
    calculate_driver_pay l n = Ok pay n
    /\ (forall total, get_total_load_amount l = Some total ->
        amount pay = VNum (py_round2 (total * 0.25))
        /\ calculation_method pay = "percentage_of_total")
    /\ (get_total_load_amount l = None ->
        0 < get0 (estimatedRatePerMile l) -> 0 < get0 (tripLength_miles l) ->
        amount pay
        = VNum (py_round2 (get0 (estimatedRatePerMile l)
                           * get0 (tripLength_miles l) * 0.25))
        /\ calculation_method pay = "calculated_from_rate_per_mile")
    /\ (get_total_load_amount l = None ->
        get0 (estimatedRatePerMile l) <= 0 \/ get0 (tripLength_miles l) <= 0 ->
        amount pay = VStr "Not Available"
        /\ calculation_method pay = "insufficient_data")
    /\ (forall x, amount pay = VNum x -> 0 <= x).
Proof.
  assert (forall x, 0 <= x -> 0 <= py_round2 x) as Hround.
  { intros x Hx. unfold py_round2. apply Qle_shift_div_l; [reflexivity |].
    assert (0 <= py_round (x * 100))%Z as Hz
      by (apply py_round_lower; change (inject_Z 0) with 0; lra).
    rewrite Zle_Qle in Hz. change (inject_Z 0) with 0 in Hz. lra. }
  unfold calculate_driver_pay. cbv zeta.
  destruct (get_total_load_amount l) as [total |] eqn:Et.
  - assert (0 < total) as Hpos.
    { unfold get_total_load_amount in Et. cbv zeta in Et.
      destruct (Qgtb_cases (get0 (private_rateUsd l)) 0) as [[E H] | [E H]];
        rewrite E in Et.
      - injection Et as <-. exact H.
      - destruct (Qgtb_cases (get0 (loadBoard_rateUsd l)) 0) as [[E' H'] | [E' H']];
          rewrite E' in Et; [injection Et as <-; exact H' | discriminate Et]. }
    assert (positive (Some total) = true) as ->
      by (apply positive_iff; eauto).
    eexists. split; [reflexivity |]. cbn [amount calculation_method get0].
    split; [intros t E; injection E as <-; split; reflexivity |].
    split; [discriminate |]. split; [discriminate |].
    intros x E. injection E as <-. apply Hround. lra.
  - cbn [positive].
    assert (get0 (private_rateUsd l) <= 0 /\ get0 (loadBoard_rateUsd l) <= 0)
      as [Hp Hb].
    { unfold get_total_load_amount in Et. cbv zeta in Et.
      destruct (Qgtb_cases (get0 (private_rateUsd l)) 0) as [[E H] | [E H]];
        rewrite E in Et; [discriminate Et |].
      destruct (Qgtb_cases (get0 (loadBoard_rateUsd l)) 0) as [[E' H'] | [E' H']];
        rewrite E' in Et; [discriminate Et |]. split; assumption. }
    apply Qgtb_false in Hp, Hb.
    assert (exists rate,
               get_broker_rate_per_mile l n = Ok rate n
               /\ (0 < get0 (estimatedRatePerMile l) ->
                   rate = estimatedRatePerMile l)
               /\ (get0 (estimatedRatePerMile l) <= 0 -> rate = None))
      as (rate & Hrate & Hest & Hnone).
    { unfold get_broker_rate_per_mile. cbv zeta.
      destruct (Qgtb_cases (get0 (estimatedRatePerMile l)) 0) as [[-> He] | [-> He]].
      - exists (estimatedRatePerMile l). split; [reflexivity |].
        split; [reflexivity | intros; exfalso; lra].
      - rewrite Hp, Hb. exists None.
        split; [destruct (Qle_bool _ 0); reflexivity |].
        split; [intros; exfalso; lra | reflexivity]. }
    erewrite run_bind by exact Hrate.
    destruct (Qgtb_cases (get0 (estimatedRatePerMile l)) 0) as [[_ He] | [_ He]].
    + rewrite (Hest He).
      assert (positive (estimatedRatePerMile l) = true) as ->.
      { apply positive_iff. destruct (estimatedRatePerMile l) as [e |]; cbn in He.
        - eauto.
        - exfalso. revert He. discriminate. }
      destruct (Qgtb_cases (get0 (tripLength_miles l)) 0) as [[-> Ht] | [-> Ht]];
        cbn [andb]; (eexists; split; [reflexivity |]);
        cbn [amount calculation_method].
      * split; [discriminate |].
        split; [intros; split; reflexivity |].
        split; [intros _ [H | H]; exfalso; lra |].
        intros x E. injection E as <-. apply Hround. nra.
      * split; [discriminate |].
        split; [intros; exfalso; lra |].
        split; [intros; split; reflexivity | discriminate].
    + rewrite (Hnone He). cbn [positive andb].
      eexists. split; [reflexivity |]. cbn [amount calculation_method].
      split; [discriminate |].
      split; [intros; exfalso; lra |].
      split; [intros; split; reflexivity | discriminate].
Qed.



(** ** The weather provider's result *)

Lemma for_each_length {A} (body : nat -> attempt A) (indices : list nat)
    (xs : list A) :
  for_each body indices = inr xs -> List.length xs = List.length indices.
Proof.
  revert xs. induction indices as [| i rest IH]; intros xs; cbn [for_each].
  - intros H. injection H as <-. reflexivity.
  - destruct (body i) as [m | x]; cbn [attempt_bind]; [discriminate |].
    destruct (for_each body rest) as [m | ys]; cbn [attempt_bind]; [discriminate |].
    intros H. injection H as <-. cbn [List.length]. rewrite (IH ys eq_refl).
    reflexivity.
Qed.

Lemma for_each_map {A} (body : nat -> attempt A) (f : nat -> A)
    (indices : list nat) :
  (forall i, In i indices -> body i = inr (f i)) ->
  for_each body indices = inr (map f indices).
Proof.
  induction indices as [| i rest IH]; intros H; cbn [for_each map].
  - reflexivity.
  - rewrite (H i (or_introl eq_refl)). cbn [attempt_bind].
    rewrite IH by (intros j Hj; apply H; right; exact Hj). reflexivity.
Qed.

Lemma weather_failure_unusable (message api_status : string) :
  unusable (weather_failure message api_status)
  /\ truthy (Some (weather_failure message api_status)) = true.
Proof. split; [left; discriminate | reflexivity]. Qed.

(** A successful [weather_result] is usable and holds at most 24 hours. *)
Lemma weather_result_success (data : raw_forecast) (w : weather_data) :
  weather_result data = inr w ->
  exists loc hourly daily times,
    w = {| wd_error := None; wd_api_status := Some "success";
           wd_location := Some loc; wd_hourly_forecast := Some hourly;
           wd_daily_forecast := Some daily |}
    /\ (exists block, raw_hourly_block data = Some block
                      /\ raw_hourly_time block = Some times)
    /\ List.length hourly = Nat.min 24 (List.length times).
Proof.
  unfold weather_result.
  destruct (raw_latitude data) as [lat |]; [| discriminate].
  destruct (raw_longitude data) as [lon |]; [| discriminate].
  destruct (raw_timezone data) as [tz |]; [| discriminate].
  destruct (raw_hourly_block data) as [hb |]; [| discriminate].
  cbn [key attempt_bind].
  destruct (raw_hourly_time hb) as [ht |] eqn:Eht; [| discriminate].
  destruct (raw_hourly_temperature_2m hb) as [hte |]; [| discriminate].
  destruct (raw_hourly_precipitation hb) as [hp |]; [| discriminate].
  destruct (raw_hourly_windspeed_10m hb) as [hw |]; [| discriminate].
  destruct (raw_hourly_weathercode hb) as [hc |]; [| discriminate].
  cbn [key attempt_bind].
  destruct (for_each _ (seq 0 (Nat.min 24 (List.length ht)))) as [m | hourly] eqn:Eh;
    [discriminate |].
  cbn [attempt_bind].
  destruct (raw_daily_block data) as [db |]; [| discriminate].
  cbn [key attempt_bind].
  destruct (raw_daily_time db) as [dt |]; [| discriminate].
  destruct (raw_daily_weathercode db) as [dc |]; [| discriminate].
  destruct (raw_daily_temperature_2m_max db) as [dmax |]; [| discriminate].
  destruct (raw_daily_temperature_2m_min db) as [dmin |]; [| discriminate].
  destruct (raw_daily_precipitation_sum db) as [dp |]; [| discriminate].
  cbn [key attempt_bind].
  destruct (for_each _ (seq 0 (List.length dt))) as [m | daily]; [discriminate |].
  cbn [attempt_bind]. intros H. injection H as <-.
  eexists. exists hourly, daily, ht. split; [reflexivity |].
  split; [exists hb; split; [reflexivity | exact Eht] |].
  rewrite (for_each_length _ _ _ Eh), length_seq. reflexivity.
Qed.

Lemma get_weather_data_result_core (lat lon : Q) (forecast_days : Z) (http : http_outcome) :
  let w := get_weather_data lat lon forecast_days http in
  truthy (Some w) = true
  /\ ((exists message status,
         w = weather_failure message status
         /\ (status = "error" \/ status = "exception"))
      \/ (exists loc hourly daily,
            w = {| wd_error := None; wd_api_status := Some "success";
                   wd_location := Some loc; wd_hourly_forecast := Some hourly;
                   wd_daily_forecast := Some daily |}
            /\ (List.length hourly <= 24)%nat)).
Proof.
  cbv zeta. unfold get_weather_data.
  destruct http as [message | status json].
  - split; [reflexivity |]. left. eauto.
  - destruct (status =? 200)%Z; [| split; [reflexivity | left; eauto]].
    destruct json as [message | data]; cbn [attempt_bind];
      [split; [reflexivity | left; eauto] |].
    destruct (weather_result data) as [message | w] eqn:E;
      [split; [reflexivity | left; eauto] |].
    destruct (weather_result_success data w E)
      as (loc & hourly & daily & times & -> & _ & Hlen).
    split; [reflexivity |]. right. exists loc, hourly, daily.
    split; [reflexivity |]. rewrite Hlen. apply Nat.le_min_l.
Qed.

(** X15: [get_weather_data] never raises.  Whatever the HTTP exchange did,
    it returns a non-empty dictionary that is either error-tagged (with
    status "error" or "exception" and no forecast) or a success carrying a
    location, a daily forecast and at most 24 hourly samples. *)
Theorem get_weather_data_result (lat lon : Q) (forecast_days : Z) (http : http_outcome) :
  let w := get_weather_data lat lon forecast_days http in
  truthy (Some w) = true
  /\ ((exists message status,
         w = weather_failure message status
         /\ (status = "error" \/ status = "exception"))
      \/ (exists loc hourly daily,
            w = {| wd_error := None; wd_api_status := Some "success";
                   wd_location := Some loc; wd_hourly_forecast := Some hourly;
                   wd_daily_forecast := Some daily |}
            /\ (List.length hourly <= 24)%nat)).
Proof. exact (get_weather_data_result_core lat lon forecast_days http). Qed.

(** The analysis of two sides that are each usable or unusable returns. *)
Lemma analysis_of_sides_ok (o d : weather_data) (trip_miles : Q) (n : nat) :
  truthy (Some o) = true -> truthy (Some d) = true ->
  (unusable o \/ exists loc hourly, usable o loc hourly) ->
  (unusable d \/ exists loc hourly, usable d loc hourly) ->
  exists r n', get_simple_weather_analysis (Some o) (Some d) trip_miles n = Ok r n'.
Proof.
  intros To Td Ho Hd. unfold get_simple_weather_analysis.
  rewrite To, Td. cbn [negb orb].
  assert (exists ro, side_report o n = Ok ro n) as (ro & Ro).
  { destruct Ho as [U | (loc & hourly & U)].
    - exists None. apply side_report_unusable. exact U.
    - destruct (side_report_usable o loc hourly n U) as (c & sv & E). eauto. }
  assert (exists rd, side_report d n = Ok rd n) as (rd & Rd).
  { destruct Hd as [U | (loc & hourly & U)].
    - exists None. apply side_report_unusable. exact U.
    - destruct (side_report_usable d loc hourly n U) as (c & sv & E). eauto. }
  erewrite run_bind by exact Ro. erewrite run_bind by exact Rd.
  destruct (estimate_weather_delay_ok (report_hazards ro ++ report_hazards rd)
              trip_miles n) as (di & n' & Hdi).
  erewrite run_bind by exact Hdi. unfold ret. eauto.
Qed.

Lemma get_weather_data_side (lat lon : Q) (forecast_days : Z) (http : http_outcome) :
  unusable (get_weather_data lat lon forecast_days http)
  \/ exists loc hourly, usable (get_weather_data lat lon forecast_days http) loc hourly.
Proof.
  destruct (get_weather_data_result_core lat lon forecast_days http)
    as [_ [(m & s & -> & _) | (loc & hourly & daily & -> & _)]].
  - left. left. discriminate.
  - right. exists loc, hourly. repeat split.
Qed.


Lemma item_nth {A} (xs : list A) (i : nat) (d : A) :
  (i < List.length xs)%nat -> item xs i = inr (nth i xs d).
Proof.
  intros H. unfold item. rewrite (nth_error_nth' xs d H). reflexivity.
Qed.

Lemma map_nth_seq {A} (xs : list A) (d : A) (k : nat) :
  (k <= List.length xs)%nat ->
  map (fun i => nth i xs d) (seq 0 k) = firstn k xs.
Proof.
  revert k. induction xs as [| x r IH]; intros k Hk.
  - cbn in Hk. assert (k = 0%nat) as -> by lia. reflexivity.
  - destruct k as [| k]; [reflexivity |].
    cbn [seq map firstn nth]. f_equal.
    rewrite <- seq_shift, map_map. cbn [nth].
    apply IH. cbn in Hk. lia.
Qed.

Lemma firstn_min_length {A} (k : nat) (xs : list A) :
  firstn (Nat.min k (List.length xs)) xs = firstn k xs.
Proof.
  destruct (Nat.le_ge_cases k (List.length xs)) as [H | H].
  - rewrite Nat.min_l by exact H. reflexivity.
  - rewrite Nat.min_r by exact H. rewrite firstn_all, firstn_all2 by exact H.
    reflexivity.
Qed.

(** X17: from a complete answer (status 200, every key present, the five
    hourly lists of one length and the five daily lists of one length)
    [get_weather_data] builds a success whose hourly forecast is the first
    24 samples, in order, and whose daily forecast has one entry per day. *)
Theorem get_weather_data_first_24
    (lat lon : Q) (forecast_days : Z) (data : raw_forecast)
    (times : list string) (temps precs winds : list Q) (codes : list Z)
    (days : list string) (day_codes : list Z) (highs lows sums : list Q) :
  raw_latitude data <> None -> raw_longitude data <> None ->
  raw_timezone data <> None ->
  hourly_lists data times temps precs winds codes ->
  List.length temps = List.length times ->
  List.length precs = List.length times ->
  List.length winds = List.length times ->
  List.length codes = List.length times ->
  daily_lists data days day_codes highs lows sums ->
  List.length day_codes = List.length days ->
  List.length highs = List.length days ->
  List.length lows = List.length days ->
  List.length sums = List.length days ->
  exists loc hourly daily,
    get_weather_data lat lon forecast_days (Response 200 (inr data))
    = {| wd_error := None; wd_api_status := Some "success";
         wd_location := Some loc; wd_hourly_forecast := Some hourly;
         wd_daily_forecast := Some daily |}
    /\ map time hourly = firstn 24 times
    /\ map weather_code hourly = firstn 24 codes
    /\ map precipitation_mm hourly = firstn 24 precs
    /\ map wind_speed_kmh hourly = firstn 24 winds
    /\ map date daily = days
    /\ map day_weather_description daily
       = map (fun c => Some (get_weather_description c)) day_codes.
Proof.
  intros Hlat Hlon Htz (hb & Ehb & Et & Ete & Ep & Ew & Ec) Lte Lp Lw Lc
    (db & Edb & Edt & Edc & Edh & Edl & Eds) Ldc Ldh Ldl Lds.
  unfold get_weather_data. cbn [Z.eqb Pos.eqb attempt_bind].
  unfold weather_result.
  destruct (raw_latitude data) as [la |]; [| contradiction].
  destruct (raw_longitude data) as [lo |]; [| contradiction].
  destruct (raw_timezone data) as [tz |]; [| contradiction].
  rewrite Ehb, Edb. cbn [key attempt_bind].
  rewrite Et, Ete, Ep, Ew, Ec, Edt, Edc, Edh, Edl, Eds. cbn [key attempt_bind].
  set (k := Nat.min 24 (List.length times)).
  assert (k <= List.length times)%nat as Hk by apply Nat.le_min_r.
  rewrite (for_each_map _
             (fun i => {| time := nth i times "";
                          temperature_celsius := nth i temps 0;
                          precipitation_mm := nth i precs 0;
                          wind_speed_kmh := nth i winds 0;
                          weather_code := nth i codes 0%Z;
                          weather_description :=
                            get_weather_description (nth i codes 0%Z) |})).
  2:{ intros i Hi. apply in_seq in Hi. unfold hourly_entry.
      rewrite (item_nth times i "") by lia.
      rewrite (item_nth temps i 0) by lia.
      rewrite (item_nth precs i 0) by lia.
      rewrite (item_nth winds i 0) by lia.
      rewrite (item_nth codes i 0%Z) by lia.
      reflexivity. }
  cbn [attempt_bind].
  rewrite (for_each_map _
             (fun i => {| date := nth i days "";
                          day_weather_code := nth i day_codes 0%Z;
                          day_weather_description :=
                            Some (get_weather_description (nth i day_codes 0%Z));
                          max_temperature_celsius := nth i highs 0;
                          min_temperature_celsius := nth i lows 0;
                          precipitation_sum_mm := nth i sums 0 |})).
  2:{ intros i Hi. apply in_seq in Hi. unfold daily_entry.
      rewrite (item_nth days i "") by lia.
      rewrite (item_nth day_codes i 0%Z) by lia.
      rewrite (item_nth highs i 0) by lia.
      rewrite (item_nth lows i 0) by lia.
      rewrite (item_nth sums i 0) by lia.
      reflexivity. }
  cbn [attempt_bind].
  eexists. eexists. eexists. split; [reflexivity |].
  rewrite !map_map. cbn [time weather_code precipitation_mm wind_speed_kmh date
                         day_weather_description].
  repeat split.
  - rewrite map_nth_seq by exact Hk. apply firstn_min_length.
  - rewrite map_nth_seq by lia. unfold k. rewrite <- Lc. apply firstn_min_length.
  - rewrite map_nth_seq by lia. unfold k. rewrite <- Lp. apply firstn_min_length.
  - rewrite map_nth_seq by lia. unfold k. rewrite <- Lw. apply firstn_min_length.
  - rewrite map_nth_seq by lia. apply firstn_all.
  - rewrite <- (map_map (fun i => nth i day_codes 0%Z)
                  (fun c => Some (get_weather_description c))).
    rewrite map_nth_seq by lia. rewrite <- Ldc, firstn_all. reflexivity.
Qed.

Lemma get_weather_data_first_24_witness :
  exists loc hourly daily,
    get_weather_data 40 (-75) 2 (Response 200 (inr raw_30_hours))
    = {| wd_error := None; wd_api_status := Some "success";
         wd_location := Some loc; wd_hourly_forecast := Some hourly;
         wd_daily_forecast := Some daily |}
    /\ map weather_code hourly = firstn 24 (repeat 75%Z 30)
    /\ map date daily = ["2024-01-01"].
Proof.
  destruct (get_weather_data_first_24 40 (-75) 2 raw_30_hours
              (repeat "2024-01-01T00:00" 30) (repeat (-2) 30) (repeat 5 30)
              (repeat 40 30) (repeat 75%Z 30)
              ["2024-01-01"] [75%Z] [0] [-5] [12])
    as (loc & hourly & daily & H & _ & Hc & _ & _ & Hd & _);
    try discriminate; try reflexivity.
  - eexists. repeat split.
  - eexists. repeat split.
  - exists loc, hourly, daily. split; [exact H |]. split; [exact Hc | exact Hd].
Defined.

(** ** The orchestrator *)

Lemma analysis_of_places_ok (env : world) (p1 p2 : place) (trip_miles : Q) (n : nat) :
  exists r n',
    get_simple_weather_analysis (place_weather env p1) (place_weather env p2)
      trip_miles n = Ok r n'.
Proof.
  unfold place_weather.
  destruct (number_truthy (place_latitude p1) && number_truthy (place_longitude p1)).
  - destruct (number_truthy (place_latitude p2) && number_truthy (place_longitude p2)).
    + destruct (get_weather_data_result_core (get0 (place_latitude p1))
                  (get0 (place_longitude p1)) 2
                  (weather_http env (get0 (place_latitude p1))
                     (get0 (place_longitude p1)))) as [T1 _].
      destruct (get_weather_data_result_core (get0 (place_latitude p2))
                  (get0 (place_longitude p2)) 2
                  (weather_http env (get0 (place_latitude p2))
                     (get0 (place_longitude p2)))) as [T2 _].
      apply analysis_of_sides_ok; try assumption; apply get_weather_data_side.
    + exists no_weather_data, n. unfold get_simple_weather_analysis.
      cbn [truthy negb]. rewrite orb_true_r. reflexivity.
  - exists no_weather_data, n. reflexivity.
Qed.

Lemma calculate_deadhead_analysis_ok (o d t : Q) (n : nat) :
  exists a n',
    calculate_deadhead_analysis o d t n = Ok a n'
    /\ (t <= 0 -> a = DeadheadInvalid "Trip miles must be greater than zero").
Proof.
  destruct (Qlt_le_dec 0 t) as [Hpos | Hnon].
  - destruct (calculate_deadhead_analysis_run o d t n Hpos)
      as (f & n' & _ & _ & _ & _ & H & _).
    exists (DeadheadSuccess f), n'. split; [exact H | intros; exfalso; lra].
  - unfold calculate_deadhead_analysis.
    apply Qle_bool_iff in Hnon as E. rewrite E.
    eexists. eexists. split; [reflexivity | reflexivity].
Qed.

Lemma get_rate_comparison_ok (b m : option Q) (n : nat) :
  exists c n',
    get_rate_comparison b m n = Ok c n'
    /\ (m = None -> c = not_available b m).
Proof.
  unfold get_rate_comparison.
  destruct (unavailable b || unavailable m) eqn:G.
  - eexists. eexists. split; [reflexivity | reflexivity].
  - apply orb_false_iff in G. destruct G as [Gb Gm].
    destruct b as [bv |]; [| discriminate Gb].
    destruct m as [mv |]; [| discriminate Gm].
    cbn in Gm.
    assert (0 < mv) as Hm.
    { apply Qnot_le_lt. intros H. apply Qle_bool_iff in H. congruence. }
    erewrite run_bind by (apply run_truediv; lra).
    eexists. eexists. split; [reflexivity | discriminate].
Qed.

(** The run of the loop body on a match that has both places: each stage
    returns, in the order of the source. *)
Lemma process_match_run (env : world) (token : string) (m : load) (n : nat) :
  has_places m = true ->
  exists broker pay wa da cmp ls pm n1 n2 n3 n4 n5,
    get_broker_rate_per_mile m n = Ok broker n1
    /\ calculate_driver_pay m n1 = Ok pay n1
    /\ get_simple_weather_analysis (place_weather env (origin_of m))
         (place_weather env (destination_of m)) (get0 (tripLength_miles m)) n1
       = Ok wa n2
    /\ calculate_deadhead_analysis (get0 (originDeadheadMiles m))
         (get0 (destinationDeadheadMiles m)) (get0 (tripLength_miles m)) n2
       = Ok da n3
    /\ get_rate_comparison broker
         (fst (fst (read_rateview
                      (call_rateview_api env (origin_of m) (destination_of m)
                         (map_equipment_code_to_rateview
                            (get_string (equipmentType m))) token)))) n3
       = Ok cmp n4
    /\ calculate_load_score (score_rate_argument cmp) (inject_Z (risk_score wa))
         (score_deadhead_argument da) (get0 (tripLength_miles m))
         (score_pay_argument pay)
         (estimated_delay_hours (estimated_delay wa)) n4
       = Ok ls n5
    /\ process_match env token m n = Ok (Some pm) n5
    /\ pm_matchId pm = get_string (matchId m)
    /\ pm_rateComparison pm = cmp /\ pm_driver_pay pm = pay
    /\ pm_weatherInfo pm = wa /\ pm_deadheadAnalysis pm = da
    /\ pm_loadQuality pm = ls
    /\ pm_tripMiles pm = get0 (tripLength_miles m)
    /\ pm_marketData pm
       = (let r := read_rateview
                     (call_rateview_api env (origin_of m) (destination_of m)
                        (map_equipment_code_to_rateview
                           (get_string (equipmentType m))) token) in
          market_data_of (snd (fst r)) (snd r)).
Proof.
  intros Hp. unfold has_places in Hp. apply andb_true_iff in Hp.
  destruct Hp as [Po Pd].
  remember (read_rateview
              (call_rateview_api env (origin_of m) (destination_of m)
                 (map_equipment_code_to_rateview (get_string (equipmentType m)))
                 token)) as rv eqn:Erv.
  destruct rv as [[market_rate market_data] rate_data].
  cbv zeta. cbn [fst snd].
  destruct (get_broker_rate_per_mile_positive_core m n) as (broker & n1 & Hb & _).
  destruct (calculate_driver_pay_cases_core m n1) as (pay & Hpay & _).
  destruct (analysis_of_places_ok env (origin_of m) (destination_of m)
              (get0 (tripLength_miles m)) n1) as (wa & n2 & Hwa).
  destruct (calculate_deadhead_analysis_ok (get0 (originDeadheadMiles m))
              (get0 (destinationDeadheadMiles m)) (get0 (tripLength_miles m)) n2)
    as (da & n3 & Hda & _).
  destruct (get_rate_comparison_ok broker market_rate n3) as (cmp & n4 & Hcmp & _).
  destruct (calculate_load_score_run (score_rate_argument cmp)
              (inject_Z (risk_score wa)) (score_deadhead_argument da)
              (get0 (tripLength_miles m)) (score_pay_argument pay)
              (estimated_delay_hours (estimated_delay wa)) n4)
    as (q & ls & n5 & Hls & _).
  exists broker, pay, wa, da, cmp, ls.
  eexists. exists n1, n2, n3, n4, n5.
  repeat (split; [eassumption |]).
  split.
  - unfold process_match. cbv zeta.
    fold (origin_of m). fold (destination_of m).
    rewrite Po, Pd. cbn [negb orb].
    erewrite run_bind by exact Hb.
    erewrite run_bind by exact Hpay.
    erewrite run_bind by exact Hwa.
    erewrite run_bind by exact Hda.
    rewrite <- Erv.
    erewrite run_bind by exact Hcmp.
    erewrite run_bind by exact Hls.
    reflexivity.
  - cbn. repeat split.
Qed.










(** With no positive trip length the weather analysis estimates no delay. *)
Lemma analysis_without_trip (o d : option weather_data) (trip_miles : Q)
    (n n' : nat) (r : analysis) :
  trip_miles <= 0 ->
  get_simple_weather_analysis o d trip_miles n = Ok r n' ->
  estimated_delay r = no_delay.
Proof.
  intros Ht. unfold get_simple_weather_analysis.
  destruct (negb (truthy o) || negb (truthy d)).
  - intros H. injection H as <- _. reflexivity.
  - destruct o as [ow |]; [| intros H; injection H as <- _; reflexivity].
    destruct d as [dw |]; [| intros H; injection H as <- _; reflexivity].
    destruct (side_report ow n) as [ro n1 | e] eqn:Ho;
      [| unfold bind; rewrite Ho; discriminate].
    erewrite run_bind by exact Ho.
    destruct (side_report dw n1) as [rd n2 | e] eqn:Hd;
      [| unfold bind; rewrite Hd; discriminate].
    erewrite run_bind by exact Hd.
    assert (estimate_weather_delay (report_hazards ro ++ report_hazards rd)
              trip_miles n2 = Ok no_delay n2) as Hdi.
    { unfold estimate_weather_delay. apply Qle_bool_iff in Ht. rewrite Ht.
      rewrite orb_true_r. reflexivity. }
    erewrite run_bind by exact Hdi.
    unfold ret. intros H. injection H as <- _. reflexivity.
Qed.

(** X21: a match without a positive trip length is still scored: its
    deadhead analysis is the "invalid" result, no weather delay is
    estimated, and its quality score is the one the scorer gives for a
    deadhead ratio of 0 and a delay of 0 hours, so neither penalty
    applies. *)
Theorem match_without_trip_miles
    (env : world) (access_token : string) (m : load) (n : nat) :
  has_places m = true -> get0 (tripLength_miles m) <= 0 ->
  exists pm n' k k',
    process_match env access_token m n = Ok (Some pm) n'
    /\ status (pm_deadheadAnalysis pm) = "invalid"
    /\ estimated_delay (pm_weatherInfo pm) = no_delay
    /\ calculate_load_score (score_rate_argument (pm_rateComparison pm))
         (inject_Z (risk_score (pm_weatherInfo pm))) 0 (pm_tripMiles pm)
         (score_pay_argument (pm_driver_pay pm)) 0 k
       = Ok (pm_loadQuality pm) k'.
Proof.
  intros Hp Ht.
  destruct (process_match_run env access_token m n Hp)
    as (broker & pay & wa & da & cmp & ls & pm & n1 & n2 & n3 & n4 & n5
        & _ & _ & Hwa & Hda & _ & Hls & H & _ & Ec & Ep & Ew & Ed & El & Et & _).
  exists pm, n5, n4, n5. split; [exact H |].
  rewrite Ec, Ep, Ew, Ed, El, Et.
  assert (da = DeadheadInvalid "Trip miles must be greater than zero") as ->.
  { destruct (calculate_deadhead_analysis_ok (get0 (originDeadheadMiles m))
                (get0 (destinationDeadheadMiles m)) (get0 (tripLength_miles m)) n2)
      as (da' & n3' & Hda' & Hinv).
    rewrite Hda in Hda'. injection Hda' as <- _. apply Hinv. exact Ht. }
  pose proof (analysis_without_trip _ _ _ _ _ _ Ht Hwa) as Hdelay.
  split; [reflexivity |]. split; [exact Hdelay |].
  rewrite Hdelay in Hls. exact Hls.
Qed.

Lemma match_without_trip_miles_witness :
  has_places load_without_trip = true
  /\ get0 (tripLength_miles load_without_trip) <= 0
  /\ exists pm n',
       process_match failing_world "token" load_without_trip 0%nat
       = Ok (Some pm) n'
       /\ status (pm_deadheadAnalysis pm) = "invalid"
       /\ estimated_delay (pm_weatherInfo pm) = no_delay.
Proof.
  split; [reflexivity |]. split; [discriminate |].
  destruct (match_without_trip_miles failing_world "token" load_without_trip 0%nat)
    as (pm & n' & _ & _ & H & Hs & Hd & _); [reflexivity | discriminate |].
  exists pm, n'. split; [exact H |]. split; [exact Hs | exact Hd].
Defined.





(** ** Saturation of the weather risk *)




(** ** Deadhead analysis: ranges and the case of no deadhead *)







